(** * A content-management dashboard: navigation state, project manager,
      page editor and dashboard statistics

    Shallow embedding of the TypeScript/React sources.

    Definitions:
    - [Js]        the fragments of JavaScript semantics the code relies on
                  (truthiness, [||], [String.prototype.trim], binary64
                  multiplication and [Math.floor]);
    - [App]       [App.tsx]: the [AppState] record, [navigateToView], the
                  [renderView] switch and the session effect;
    - [Supabase]  [lib/supabase.ts]: the records, and the hosted backend
                  the components talk to, at the level of its record API;
    - [Ui]        the state-and-exception monad in which the asynchronous
                  handlers of the screen components are written;
    - [ProjectManager], [PageEditor], [Dashboard]
                  the handlers of the three screen components;
    - [MarkdownEditor], [Sidebar]
                  the word count and the toolbar of the editor, the
                  expanded projects of the sidebar;
    - [Scenario]  concrete states and worlds.

    Properties:
    - [NavigationLaws]      merge-retain navigation and the router;
    - [ProjectManagerLaws]  creating and duplicating projects;
    - [PageEditorLaws]      deleting, saving and publishing pages;
    - [NumberFacts]         [Math.floor(n * 0.4)] in binary64;
    - [DashboardLaws]       the statistics of the dashboard;
    - [StringFacts], [MarkdownEditorLaws], [SlugLaws]
                            substrings, word counts, markers and slugs;
    - [PageEditorFlows], [ProjectManagerFlows], [SidebarLaws],
      [DashboardFlows]      served and rejected requests, the selection
                            effect, the expanded projects. *)

From Stdlib Require Import String Ascii List ZArith Lia Bool Arith.
From Stdlib Require Import DecimalString.
From Stdlib Require Import Floats.SpecFloat.
From Stdlib Require Import QArith Qround.
From Stdlib Require Import Sorting.Sorted Sorting.Permutation.
Import ListNotations.

Local Open Scope string_scope.
Local Open Scope list_scope.

(* ===================================================================== *)
(** * JavaScript values                                                   *)
(* ===================================================================== *)

Module Js.

(** A value of type [string | undefined] or [string | null]: [None] is the
    absent value, [Some s] a string.  Both [undefined] and [null] are
    falsy, and so is the empty string. *)
Definition truthy_string (s : string) : bool :=
  match s with
  | EmptyString => false
  | String _ _ => true
  end.

Definition truthy (v : option string) : bool :=
  match v with
  | None => false
  | Some s => truthy_string s
  end.

(** [a || b] on optional strings: [a] when it is truthy, [b] otherwise. *)
Definition or (a b : option string) : option string :=
  if truthy a then a else b.

(** ** Strings

    A string is the sequence of its code units; the model keeps the code
    units below 256 (one [ascii] each). *)

(** The white space and line terminators of ECMAScript in that range:
    TAB, LF, VT, FF, CR, SPACE and NO-BREAK SPACE. *)
Definition isWhiteSpace (c : ascii) : bool :=
  let n := nat_of_ascii c in
  Nat.eqb n 9 || Nat.eqb n 10 || Nat.eqb n 11 || Nat.eqb n 12
  || Nat.eqb n 13 || Nat.eqb n 32 || Nat.eqb n 160.

Fixpoint trimStart (s : string) : string :=
  match s with
  | EmptyString => EmptyString
  | String c rest => if isWhiteSpace c then trimStart rest else s
  end.

Fixpoint trimEnd (s : string) : string :=
  match s with
  | EmptyString => EmptyString
  | String c rest =>
      match trimEnd rest with
      | EmptyString => if isWhiteSpace c then EmptyString else String c EmptyString
      | kept => String c kept
      end
  end.

(** [s.trim()] *)
Definition trim (s : string) : string := trimEnd (trimStart s).

(** ** Numbers

    Array lengths and [order_index] are integers; [x || 0] on a number
    that is not NaN is the number itself. *)
Definition or_zero (x : option Z) : Z :=
  match x with
  | Some n => if Z.eqb n 0 then 0%Z else n
  | None => 0%Z
  end.

(** [xs?.length] *)
Definition length_opt {A : Type} (xs : option (list A)) : option Z :=
  option_map (fun l => Z.of_nat (List.length l)) xs.

(** [xs || []] *)
Definition or_empty {A : Type} (xs : option (list A)) : list A :=
  match xs with
  | Some l => l
  | None => []
  end.

(** ** Arithmetic on Numbers

    A Number is an IEEE 754 binary64 value: 53 bits of precision,
    exponents up to 1024, products rounded to nearest, ties to even. *)
Definition prec : Z := 53.
Definition emax : Z := 1024.

(** The Number of an integer, for instance of an array length. *)
Definition ofInt (n : Z) : spec_float := binary_normalize prec emax n 0 false.

(** [x * y] *)
Definition mul (x y : spec_float) : spec_float := SFmul prec emax x y.

(** The literal [0.4]: the binary64 value nearest to 4/10, which is
    7205759403792794 / 2^54. *)
Definition lit_0_4 : spec_float := S754_finite false 7205759403792794 (-54).

(** [Math.floor(x)] of a finite [x], as an integer.  [Math.floor] returns
    NaN and the infinities as they are; they are no integers, and [0]
    stands for them here. *)
Definition Math_floor (x : spec_float) : Z :=
  match x with
  | S754_finite s m e => Z.shiftl (cond_Zopp s (Zpos m)) e
  | _ => 0%Z
  end.

(** ** More of [String.prototype]

    Indices count code units. *)

(** The first [n] code units of [s], and [s] without them. *)
Fixpoint take (n : nat) (s : string) : string :=
  match n, s with
  | S n', String c rest => String c (take n' rest)
  | _, _ => EmptyString
  end.

Fixpoint drop (n : nat) (s : string) : string :=
  match n, s with
  | S n', String _ rest => drop n' rest
  | _, _ => s
  end.

(** [s.substring(a, b)]: both indices are clamped to the length of [s]
    and swapped when [a > b]. *)
Definition substring (s : string) (a b : nat) : string :=
  let a' := Nat.min a (String.length s) in
  let b' := Nat.min b (String.length s) in
  take (Nat.max a' b' - Nat.min a' b') (drop (Nat.min a' b') s).

(** [s.toLowerCase()] on the code units below 256: the letters [A]-[Z]
    and the capital letters of Latin-1 (U+00C0-U+00DE but U+00D7) move up
    by 32.  Code units from 256 on are outside this model of strings; the
    results on slugs use of this function only that it maps [A]-[Z] to
    [a]-[z] and leaves [a]-[z], the digits and the hyphen as they are. *)
Definition lowerCase (c : ascii) : ascii :=
  let n := nat_of_ascii c in
  if ((65 <=? n) && (n <=? 90))%nat
     || ((192 <=? n) && (n <=? 222) && negb (Nat.eqb n 215))%nat
  then ascii_of_nat (n + 32)
  else c.

Fixpoint toLowerCase (s : string) : string :=
  match s with
  | EmptyString => EmptyString
  | String c rest => String (lowerCase c) (toLowerCase rest)
  end.

(** [s.split(/\s+/)]: the pieces of [s] between its maximal runs of white
    space; [afterSpace] tells that the code unit before [s] was white
    space, so that the run goes on.  The first piece of the result is the
    one being read. *)
Fixpoint splitSpaces (afterSpace : bool) (s : string) : list string :=
  match s with
  | EmptyString => [EmptyString]
  | String c rest =>
      if isWhiteSpace c then
        if afterSpace then splitSpaces true rest
        else EmptyString :: splitSpaces true rest
      else
        match splitSpaces false rest with
        | piece :: pieces => String c piece :: pieces
        | [] => [String c EmptyString]
        end
  end.

Definition split_spaces (s : string) : list string := splitSpaces false s.

(** [a || b] where [a] may be absent and [b] is a string. *)
Definition or_string (a : option string) (b : string) : string :=
  match a with
  | Some s => if truthy_string s then s else b
  | None => b
  end.

(** [a === b] where [b] may be absent. *)
Definition strict_eq (a : string) (b : option string) : bool :=
  match b with
  | Some s => String.eqb a s
  | None => false
  end.

End Js.

(* ===================================================================== *)
(** * App.tsx: navigation state and view router                           *)
(* ===================================================================== *)

Module App.

(** [export type View = 'dashboard' | 'editor' | ...] *)
Inductive View : Type :=
| dashboard | editor | projects | templates | analytics | settings.

(** The string a [View] is at run time. *)
Definition view_tag (v : View) : string :=
  match v with
  | dashboard => "dashboard"
  | editor => "editor"
  | projects => "projects"
  | templates => "templates"
  | analytics => "analytics"
  | settings => "settings"
  end.

(** The authenticated user, as far as the application looks at it. *)
Definition User := string.

Record AppState : Type := mkAppState {
  currentView : View;
  selectedProjectId : option string;
  selectedPageId : option string;
  user : option User
}.

(** The argument of [useState] in [App]. *)
Definition initialAppState : AppState :=
  {| currentView := dashboard;
     selectedProjectId := None;
     selectedPageId := None;
     user := None |}.

(** [setAppState(prev => ({ ...prev, user: session?.user ?? null }))],
    the updater of both the initial session fetch and the subscription. *)
Definition setSessionUser (session_user : option User) (prev : AppState)
  : AppState :=
  {| currentView := currentView prev;
     selectedProjectId := selectedProjectId prev;
     selectedPageId := selectedPageId prev;
     user := session_user |}.

(** [navigateToView(view, projectId?, pageId?)]: the updater handed to
    [setAppState]. *)
Definition navigateToView (view : View) (projectId pageId : option string)
  (prev : AppState) : AppState :=
  {| currentView := view;
     selectedProjectId := Js.or projectId (selectedProjectId prev);
     selectedPageId := Js.or pageId (selectedPageId prev);
     user := user prev |}.

(** What [renderView] returns. *)
Inductive Screen : Type :=
| DashboardScreen
| PageEditorScreen (projectId pageId : option string)
| ProjectManagerScreen
| TemplatesPlaceholder
| AnalyticsPlaceholder
| SettingsPlaceholder.

(** The [switch] of [renderView], on the run-time value of
    [appState.currentView]; the last branch is its [default]. *)
Definition renderSwitch (tag : string) (projectId pageId : option string)
  : Screen :=
  if String.eqb tag "dashboard" then DashboardScreen
  else if String.eqb tag "editor" then PageEditorScreen projectId pageId
  else if String.eqb tag "projects" then ProjectManagerScreen
  else if String.eqb tag "templates" then TemplatesPlaceholder
  else if String.eqb tag "analytics" then AnalyticsPlaceholder
  else if String.eqb tag "settings" then SettingsPlaceholder
  else DashboardScreen.

Definition renderView (appState : AppState) : Screen :=
  renderSwitch (view_tag (currentView appState))
    (selectedProjectId appState) (selectedPageId appState).

(** One call of [navigateToView], as data. *)
Record NavCall : Type := mkNavCall {
  nav_view : View;
  nav_projectId : option string;
  nav_pageId : option string
}.

Definition navigate (c : NavCall) : AppState -> AppState :=
  navigateToView (nav_view c) (nav_projectId c) (nav_pageId c).

(** React applies queued updaters in the order of the calls. *)
Definition navigateAll (calls : list NavCall) (s : AppState) : AppState :=
  fold_left (fun st c => navigate c st) calls s.

(** What happens to the application state during its lifetime. *)
Inductive Event : Type :=
| SessionChanged (session_user : option User)
| Navigated (c : NavCall).

Definition handle (s : AppState) (e : Event) : AppState :=
  match e with
  | SessionChanged u => setSessionUser u s
  | Navigated c => navigate c s
  end.

Definition lifetime (events : list Event) : AppState :=
  fold_left handle events initialAppState.

(** ** The selection laws, in the words of the specification *)

(** The most recent of the arguments [args] (oldest first) that [passed]
    accepts, or [init] when there is none. *)
Fixpoint mostRecent (passed : option string -> bool) (init : option string)
  (args : list (option string)) : option string :=
  match args with
  | [] => init
  | a :: rest => mostRecent passed (if passed a then a else init) rest
  end.

(** An argument is non-absent when it was passed at all. *)
Definition nonAbsent (a : option string) : bool :=
  match a with
  | Some _ => true
  | None => false
  end.

(** The navigation calls among the events of a lifetime. *)
Fixpoint navigations (events : list Event) : list NavCall :=
  match events with
  | [] => []
  | Navigated c :: rest => c :: navigations rest
  | SessionChanged _ :: rest => navigations rest
  end.

Definition selection (s : AppState) : View * option string * option string :=
  (currentView s, selectedProjectId s, selectedPageId s).

End App.

(* ===================================================================== *)
(** * lib/supabase.ts: the records and the hosted backend                 *)
(* ===================================================================== *)

Module Supabase.

Definition Error := string.

(** [export interface Project] *)
Module Project.
Record t : Type := mk {
  id : string;
  name : string;
  description : option string;
  domain : option string;
  subdomain : option string;
  created_at : string;
  updated_at : string;
  user_id : string;
  is_published : bool;
  theme_settings : option string
}.
End Project.

(** [export interface Page] *)
Module Page.
Record t : Type := mk {
  id : string;
  project_id : string;
  title : string;
  slug : string;
  content : string;
  meta_description : option string;
  meta_keywords : option string;
  is_published : bool;
  order_index : Z;
  parent_id : option string;
  created_at : string;
  updated_at : string
}.
End Page.

(** [export interface Analytics] *)
Module Analytics.
Record t : Type := mk {
  id : string;
  project_id : string;
  page_id : option string;
  event_type : string;
  event_data : option string;
  timestamp : string;
  user_agent : option string;
  ip_address : option string
}.
End Analytics.

(** The object literals handed to [.insert] and [.update].  A key the
    literal does not mention is [None]: the column takes its default. *)
Module ProjectInsert.
Record t : Type := mk {
  name : string;
  description : option string;
  subdomain : option string;
  user_id : string;
  is_published : bool;
  theme_settings : option string
}.
End ProjectInsert.

Module PageInsert.
Record t : Type := mk {
  project_id : string;
  title : string;
  slug : string;
  content : string;
  meta_description : option string;
  meta_keywords : option string;
  is_published : bool;
  order_index : Z;
  parent_id : option string
}.
End PageInsert.

Module PageUpdate.
Record t : Type := mk {
  title : string;
  slug : string;
  content : string;
  meta_description : string;
  meta_keywords : string;
  is_published : bool;
  updated_at : string
}.
End PageUpdate.

(** What a query resolves to: [{ data, error }]. *)
Record Response (A : Type) : Type := mkResponse {
  data : option A;
  error : option Error
}.
Arguments mkResponse {A} _ _.
Arguments data {A} _.
Arguments error {A} _.

Definition succeeded {A : Type} (a : A) : Response A :=
  {| data := Some a; error := None |}.
Definition failed {A : Type} (e : Error) : Response A :=
  {| data := None; error := Some e |}.
Definition done : Response unit :=
  {| data := None; error := None |}.

(** The hosted service: the session, the three tables the application
    reads or writes, the key generator and the server clock. *)
Record Backend : Type := mkBackend {
  session : option string;
  projects : list Project.t;
  pages : list Page.t;
  analytics : list Analytics.t;
  next_id : nat;
  now : string
}.

Definition gen_id (n : nat) : string :=
  "id-" ++ NilEmpty.string_of_uint (Nat.to_uint n).

(** [from('projects').insert(row).select().single()] *)
Definition storeProject (key : string) (stamp : string) (row : ProjectInsert.t)
  : Project.t :=
  {| Project.id := key;
     Project.name := ProjectInsert.name row;
     Project.description := ProjectInsert.description row;
     Project.domain := None;
     Project.subdomain := ProjectInsert.subdomain row;
     Project.created_at := stamp;
     Project.updated_at := stamp;
     Project.user_id := ProjectInsert.user_id row;
     Project.is_published := ProjectInsert.is_published row;
     Project.theme_settings := ProjectInsert.theme_settings row |}.

Definition insertProject (row : ProjectInsert.t) (b : Backend)
  : Project.t * Backend :=
  let stored := storeProject (gen_id (next_id b)) (now b) row in
  (stored,
   {| session := session b;
      projects := projects b ++ [stored];
      pages := pages b;
      analytics := analytics b;
      next_id := S (next_id b);
      now := now b |}).

(** [from('pages').insert(rows)] *)
Definition storePage (key : string) (stamp : string) (row : PageInsert.t)
  : Page.t :=
  {| Page.id := key;
     Page.project_id := PageInsert.project_id row;
     Page.title := PageInsert.title row;
     Page.slug := PageInsert.slug row;
     Page.content := PageInsert.content row;
     Page.meta_description := PageInsert.meta_description row;
     Page.meta_keywords := PageInsert.meta_keywords row;
     Page.is_published := PageInsert.is_published row;
     Page.order_index := PageInsert.order_index row;
     Page.parent_id := PageInsert.parent_id row;
     Page.created_at := stamp;
     Page.updated_at := stamp |}.

Fixpoint storePages (first : nat) (stamp : string) (rows : list PageInsert.t)
  : list Page.t :=
  match rows with
  | [] => []
  | row :: rest => storePage (gen_id first) stamp row :: storePages (S first) stamp rest
  end.

Definition insertPages (rows : list PageInsert.t) (b : Backend) : Backend :=
  {| session := session b;
     projects := projects b;
     pages := pages b ++ storePages (next_id b) (now b) rows;
     analytics := analytics b;
     next_id := next_id b + List.length rows;
     now := now b |}.

(** [from('pages').select('*').eq('project_id', key)] *)
Definition pagesOfProject (key : string) (b : Backend) : list Page.t :=
  filter (fun p => String.eqb (Page.project_id p) key) (pages b).

(** [from('pages').update(u).eq('id', key)] *)
Definition applyPageUpdate (u : PageUpdate.t) (p : Page.t) : Page.t :=
  {| Page.id := Page.id p;
     Page.project_id := Page.project_id p;
     Page.title := PageUpdate.title u;
     Page.slug := PageUpdate.slug u;
     Page.content := PageUpdate.content u;
     Page.meta_description := Some (PageUpdate.meta_description u);
     Page.meta_keywords := Some (PageUpdate.meta_keywords u);
     Page.is_published := PageUpdate.is_published u;
     Page.order_index := Page.order_index p;
     Page.parent_id := Page.parent_id p;
     Page.created_at := Page.created_at p;
     Page.updated_at := PageUpdate.updated_at u |}.

Definition updatePage (u : PageUpdate.t) (key : string) (b : Backend) : Backend :=
  {| session := session b;
     projects := projects b;
     pages := map (fun p => if String.eqb (Page.id p) key
                            then applyPageUpdate u p else p) (pages b);
     analytics := analytics b;
     next_id := next_id b;
     now := now b |}.

(** [from('pages').delete().eq('id', key)] *)
Definition deletePageRow (key : string) (b : Backend) : Backend :=
  {| session := session b;
     projects := projects b;
     pages := filter (fun p => negb (String.eqb (Page.id p) key)) (pages b);
     analytics := analytics b;
     next_id := next_id b;
     now := now b |}.

(** [from('projects').select('*').order('updated_at', { ascending: false })
    .limit(n)]: the rows by decreasing [updated_at], the first [n] of
    them.  ISO timestamps compare as strings. *)
Fixpoint insertByUpdatedAt (p : Project.t) (sorted : list Project.t)
  : list Project.t :=
  match sorted with
  | [] => [p]
  | q :: rest =>
      if String.leb (Project.updated_at q) (Project.updated_at p)
      then p :: sorted
      else q :: insertByUpdatedAt p rest
  end.

Definition byUpdatedAtDesc (rows : list Project.t) : list Project.t :=
  fold_right insertByUpdatedAt [] rows.

(** [p] was updated no earlier than [q]. *)
Definition notOlder (p q : Project.t) : Prop :=
  String.leb (Project.updated_at q) (Project.updated_at p) = true.

Definition recentProjects (n : nat) (b : Backend) : list Project.t :=
  firstn n (byUpdatedAtDesc (projects b)).

End Supabase.

(* ===================================================================== *)
(** * The world of a screen component and its asynchronous handlers       *)
(* ===================================================================== *)

Module Ui.

Import Supabase.

(** [toast.success(msg)] and [toast.error(msg)] *)
Inductive Toast : Type :=
| success (msg : string)
| failure (msg : string).

(** The requests the components send to the backend. *)
Inductive Request : Type :=
| AuthGetUser
| ProjectsInsert (row : ProjectInsert.t)
| ProjectsSelectRecent (limit : nat)
| PagesInsert (rows : list PageInsert.t)
| PagesSelectByProject (project_id : string)
| PagesUpdate (changes : PageUpdate.t) (id : string)
| PagesDelete (id : string)
| AnalyticsSelect.

(** Everything a handler of a component with state [S] can read or change:
    the backend, the application state it reaches through [onNavigate],
    the state of the component, and what it has emitted.

    [faults] decides which requests the backend rejects: each request
    takes the head of the list, [true] meaning that it is answered with
    an error and leaves the backend as it was; an empty list rejects
    nothing.  [date_now] is what [new Date().toISOString()] returns. *)
Record World (S : Type) : Type := mkWorld {
  backend : Backend;
  faults : list bool;
  date_now : string;
  requests : list Request;
  toasts : list Toast;
  console : list string;
  app : App.AppState;
  ui : S
}.
Arguments mkWorld {S}.
Arguments backend {S}.
Arguments faults {S}.
Arguments date_now {S}.
Arguments requests {S}.
Arguments toasts {S}.
Arguments console {S}.
Arguments app {S}.
Arguments ui {S}.

(** How a block of statements ends: normally, or by a [throw]. *)
Inductive Outcome (A : Type) : Type :=
| Returned (a : A)
| Thrown (e : Error).
Arguments Returned {A}.
Arguments Thrown {A}.

Definition Task (S A : Type) : Type := World S -> Outcome A * World S.

Section Monad.
Context {S : Type}.

Definition ret {A : Type} (a : A) : Task S A := fun w => (Returned a, w).

Definition bind {A B : Type} (m : Task S A) (k : A -> Task S B) : Task S B :=
  fun w =>
    match m w with
    | (Returned a, w') => k a w'
    | (Thrown e, w') => (Thrown e, w')
    end.

Definition throw {A : Type} (e : Error) : Task S A := fun w => (Thrown e, w).

(** [try { body } catch (error) { handler }] *)
Definition try_catch {A : Type} (body : Task S A) (handler : Error -> Task S A)
  : Task S A :=
  fun w =>
    match body w with
    | (Returned a, w') => (Returned a, w')
    | (Thrown e, w') => handler e w'
    end.

(** [try { body } finally { cleanup }] *)
Definition try_finally {A : Type} (body : Task S A) (cleanup : Task S unit)
  : Task S A :=
  fun w =>
    match body w with
    | (r, w') =>
        match cleanup w' with
        | (Returned _, w'') => (r, w'')
        | (Thrown e, w'') => (Thrown e, w'')
        end
    end.

Definition modify (f : World S -> World S) : Task S unit :=
  fun w => (Returned tt, f w).

(** [setX(prev => f(prev))] on the state of the component *)
Definition setState (f : S -> S) : Task S unit :=
  modify (fun w =>
    mkWorld (backend w) (faults w) (date_now w) (requests w) (toasts w)
      (console w) (app w) (f (ui w))).

Definition toast (t : Toast) : Task S unit :=
  modify (fun w =>
    mkWorld (backend w) (faults w) (date_now w) (requests w) (toasts w ++ [t])
      (console w) (app w) (ui w)).

(** [console.error(label, error)] *)
Definition console_error (label : string) (e : Error) : Task S unit :=
  modify (fun w =>
    mkWorld (backend w) (faults w) (date_now w) (requests w) (toasts w)
      (console w ++ [String.append label (String.append " " e)]) (app w) (ui w)).

(** [onNavigate(view, projectId, pageId)], which is [navigateToView] of
    [App]. *)
Definition onNavigate (view : App.View) (projectId pageId : option string)
  : Task S unit :=
  modify (fun w =>
    mkWorld (backend w) (faults w) (date_now w) (requests w) (toasts w)
      (console w) (App.navigateToView view projectId pageId (app w)) (ui w)).

(** [new Date().toISOString()] *)
Definition toISOString_now : Task S string := fun w => (Returned (date_now w), w).

(** ** The client *)

Definition rejected : Error := "request rejected by the backend".

(** Sending [r]: the request is recorded, and the backend either rejects
    it or serves it with [serve], which gives the answer and the backend
    after it. *)
Definition send {A : Type} (r : Request) (refused : A)
  (serve : Backend -> A * Backend) : Task S A :=
  fun w =>
    let sent := requests w ++ [r] in
    match faults w with
    | true :: later =>
        (Returned refused,
         mkWorld (backend w) later (date_now w) sent (toasts w) (console w)
           (app w) (ui w))
    | fine =>
        let (answer, b) := serve (backend w) in
        (Returned answer,
         mkWorld b (tl fine) (date_now w) sent (toasts w) (console w)
           (app w) (ui w))
    end.

(** [supabase.auth.getUser()], destructured to [user] *)
Definition auth_getUser : Task S (option string) :=
  send AuthGetUser None (fun b => (session b, b)).

(** [supabase.from('projects').insert(row).select().single()] *)
Definition projects_insert_single (row : ProjectInsert.t)
  : Task S (Response Project.t) :=
  send (ProjectsInsert row) (failed rejected)
    (fun b => let (stored, b') := insertProject row b in (succeeded stored, b')).

(** [supabase.from('projects').select('*')
      .order('updated_at', { ascending: false }).limit(n)] *)
Definition projects_select_recent (n : nat) : Task S (Response (list Project.t)) :=
  send (ProjectsSelectRecent n) (failed rejected)
    (fun b => (succeeded (recentProjects n b), b)).

(** [supabase.from('pages').insert(rows)] *)
Definition pages_insert (rows : list PageInsert.t) : Task S (Response unit) :=
  send (PagesInsert rows) (failed rejected)
    (fun b => (done, insertPages rows b)).

(** [supabase.from('pages').select('*').eq('project_id', key)] *)
Definition pages_select_by_project (key : string)
  : Task S (Response (list Page.t)) :=
  send (PagesSelectByProject key) (failed rejected)
    (fun b => (succeeded (pagesOfProject key b), b)).

(** [supabase.from('pages').update(changes).eq('id', key)] *)
Definition pages_update (changes : PageUpdate.t) (key : string)
  : Task S (Response unit) :=
  send (PagesUpdate changes key) (failed rejected)
    (fun b => (done, updatePage changes key b)).

(** [supabase.from('pages').delete().eq('id', key)] *)
Definition pages_delete (key : string) : Task S (Response unit) :=
  send (PagesDelete key) (failed rejected)
    (fun b => (done, deletePageRow key b)).

(** [supabase.from('analytics').select('*')] *)
Definition analytics_select : Task S (Response (list Analytics.t)) :=
  send AnalyticsSelect (failed rejected)
    (fun b => (succeeded (analytics b), b)).

(** [if (error) throw error] *)
Definition throw_if_error {A : Type} (r : Response A) : Task S unit :=
  match error r with
  | Some e => throw e
  | None => ret tt
  end.

(** Reading a property of [data] when [data] is [null] throws. *)
Definition deref {A : Type} (d : option A) : Task S A :=
  match d with
  | Some a => ret a
  | None => throw "TypeError: Cannot read properties of null"
  end.

End Monad.

Declare Scope task_scope.
Delimit Scope task_scope with task.
Notation "x <- m ;; k" := (bind m (fun x => k))
  (at level 61, m at next level, right associativity) : task_scope.
Notation "m ;; k" := (bind m (fun _ => k))
  (at level 61, right associativity) : task_scope.

(** Running a handler in a world: the world it leaves. *)
Definition run {S A : Type} (t : Task S A) (w : World S) : World S := snd (t w).

(** The backend serves the next [n] requests: none of them is rejected. *)
Fixpoint granted (n : nat) (fs : list bool) : bool :=
  match n with
  | O => true
  | S n' => negb (hd false fs) && granted n' (tl fs)
  end.

(** The world in which a component with cells [s] is mounted. *)
Definition mount {S : Type} (b : Supabase.Backend) (fs : list bool)
  (stamp : string) (a : App.AppState) (s : S) : World S :=
  mkWorld b fs stamp [] [] [] a s.

End Ui.

(* ===================================================================== *)
(** * components/pages/ProjectManager.tsx                                 *)
(* ===================================================================== *)

Module ProjectManager.

Import Supabase Ui.
Local Open Scope task_scope.

(** The object of the two dialog forms. *)
Record Form : Type := mkForm {
  name : string;
  description : string;
  subdomain : string
}.

Definition emptyForm : Form :=
  {| name := ""; description := ""; subdomain := "" |}.

(** The [useState] cells of the component. *)
Record State : Type := mkState {
  projects : list Project.t;
  loading : bool;
  showNewProjectDialog : bool;
  showEditProjectDialog : bool;
  editingProject : option Project.t;
  newProject : Form;
  editProject : Form
}.

Definition initialState : State :=
  {| projects := [];
     loading := true;
     showNewProjectDialog := false;
     showEditProjectDialog := false;
     editingProject := None;
     newProject := emptyForm;
     editProject := emptyForm |}.

Definition setProjects (f : list Project.t -> list Project.t) : Task State unit :=
  setState (fun s =>
    mkState (f (projects s)) (loading s) (showNewProjectDialog s)
      (showEditProjectDialog s) (editingProject s) (newProject s) (editProject s)).

Definition setShowNewProjectDialog (b : bool) : Task State unit :=
  setState (fun s =>
    mkState (projects s) (loading s) b
      (showEditProjectDialog s) (editingProject s) (newProject s) (editProject s)).

Definition setNewProject (f : Form -> Form) : Task State unit :=
  setState (fun s =>
    mkState (projects s) (loading s) (showNewProjectDialog s)
      (showEditProjectDialog s) (editingProject s) (f (newProject s)) (editProject s)).

Definition newline : string := String (ascii_of_nat 10) EmptyString.

(** The default page of a new project: the literal of the second insert
    of [createProject]. *)
Definition homePage (project_id project_name : string) : PageInsert.t :=
  {| PageInsert.project_id := project_id;
     PageInsert.title := "Home";
     PageInsert.slug := "home";
     PageInsert.content :=
       String.append "# Welcome to "
         (String.append project_name
            (String.append newline
               (String.append newline
                  "This is your homepage. Start editing to create amazing content!")));
     PageInsert.meta_description := Some (String.append "Welcome to " project_name);
     PageInsert.meta_keywords := None;
     PageInsert.is_published := false;
     PageInsert.order_index := 0%Z;
     PageInsert.parent_id := None |}.

(** The object of the first insert of [createProject]. *)
Definition newProjectRow (form : Form) (user_id : string) : ProjectInsert.t :=
  {| ProjectInsert.name := name form;
     ProjectInsert.description := Some (description form);
     ProjectInsert.subdomain := Js.or (Some (subdomain form)) None;
     ProjectInsert.user_id := user_id;
     ProjectInsert.is_published := false;
     ProjectInsert.theme_settings := None |}.

(** The object of the first insert of [duplicateProject]. *)
Definition copyRow (project : Project.t) (user_id : string) : ProjectInsert.t :=
  {| ProjectInsert.name := String.append (Project.name project) " (Copy)";
     ProjectInsert.description := Project.description project;
     ProjectInsert.subdomain := None;
     ProjectInsert.user_id := user_id;
     ProjectInsert.is_published := false;
     ProjectInsert.theme_settings := Project.theme_settings project |}.

(** [createProject], a closure over the [newProject] of its render,
    which is in [env]. *)
Definition createProject (env : State) : Task State unit :=
  if negb (Js.truthy_string (Js.trim (name (newProject env)))) then
    toast (failure "Project name is required")
  else
    try_catch
      (user <- auth_getUser ;;
       match user with
       | None => throw "Not authenticated"
       | Some user_id =>
           r <- projects_insert_single (newProjectRow (newProject env) user_id) ;;
           throw_if_error r ;;
           (* Create a default home page for the new project *)
           created <- deref (data r) ;;
           _ <- pages_insert [homePage (Project.id created) (name (newProject env))] ;;
           setProjects (fun prev => created :: prev) ;;
           setShowNewProjectDialog false ;;
           setNewProject (fun _ => emptyForm) ;;
           toast (success "Project created successfully!") ;;
           (* Navigate to the editor for the new project *)
           onNavigate App.editor (Some (Project.id created)) None
       end)
      (fun error =>
         console_error "Error creating project:" error ;;
         toast (failure "Failed to create project")).

(** The object [duplicateProject] builds of each page of the original. *)
Definition copyPage (new_project_id : string) (page : Page.t) : PageInsert.t :=
  {| PageInsert.project_id := new_project_id;
     PageInsert.title := Page.title page;
     PageInsert.slug := Page.slug page;
     PageInsert.content := Page.content page;
     PageInsert.meta_description := Page.meta_description page;
     PageInsert.meta_keywords := Page.meta_keywords page;
     PageInsert.is_published := false;
     PageInsert.order_index := Page.order_index page;
     PageInsert.parent_id := Page.parent_id page |}.

(** [duplicateProject(project)].  The client answers with [data] exactly
    when [error] is absent, so past the check [newProject] is the stored
    row. *)
Definition duplicateProject (project : Project.t) : Task State unit :=
  try_catch
    (user <- auth_getUser ;;
     match user with
     | None => throw "Not authenticated"
     | Some user_id =>
         r <- projects_insert_single (copyRow project user_id) ;;
         throw_if_error r ;;
         created <- deref (data r) ;;
         (* Copy all pages from the original project *)
         found <- pages_select_by_project (Project.id project) ;;
         throw_if_error found ;;
         match data found with
         | Some (first :: others) =>
             inserted <- pages_insert
                           (map (copyPage (Project.id created)) (first :: others)) ;;
             throw_if_error inserted
         | _ => ret tt
         end ;;
         setProjects (fun prev => created :: prev) ;;
         toast (success "Project duplicated successfully!")
     end)
    (fun error =>
       console_error "Error duplicating project:" error ;;
       toast (failure "Failed to duplicate project")).

(** [copy] is the stored duplicate of [original] in the project [owner]:
    same title, slug, content, meta fields, order and parent, not
    published. *)
Definition copyOf (owner : Project.t) (original copy : Page.t) : Prop :=
  Page.project_id copy = Project.id owner
  /\ Page.title copy = Page.title original
  /\ Page.slug copy = Page.slug original
  /\ Page.content copy = Page.content original
  /\ Page.meta_description copy = Page.meta_description original
  /\ Page.meta_keywords copy = Page.meta_keywords original
  /\ Page.order_index copy = Page.order_index original
  /\ Page.parent_id copy = Page.parent_id original
  /\ Page.is_published copy = false.

End ProjectManager.

(* ===================================================================== *)
(** * components/pages/PageEditor.tsx                                     *)
(* ===================================================================== *)

Module PageEditor.

Import Supabase Ui.
Local Open Scope task_scope.

(** The object of the [pageData] cell. *)
Record PageData : Type := mkPageData {
  title : string;
  slug : string;
  content : string;
  metaDescription : string;
  metaKeywords : string;
  isPublished : bool
}.

(** The [useState] cells of the component. *)
Record State : Type := mkState {
  project : option Project.t;
  currentPage : option Page.t;
  pages : list Page.t;
  loading : bool;
  saving : bool;
  showNewPageDialog : bool;
  newPageTitle : string;
  pageData : PageData
}.

(** One render of the component: the props and the values of the cells
    it was called with.  The handlers defined by a render are closures
    over these constants. *)
Record Render : Type := mkRender {
  projectId : option string;
  pageId : option string;
  cells : State
}.

(** A function value waiting in [setTimeout]: the code and the render it
    closes over. *)
Inductive Callback : Type :=
| HandleSave (env : Render).

(** What lives between renders: the current cells and the pending
    timers. *)
Record Live : Type := mkLive {
  current : State;
  timers : list Callback
}.

Definition setCells (f : State -> State) : Task Live unit :=
  setState (fun l => mkLive (f (current l)) (timers l)).

Definition setPages (f : list Page.t -> list Page.t) : Task Live unit :=
  setCells (fun s =>
    mkState (project s) (currentPage s) (f (pages s)) (loading s) (saving s)
      (showNewPageDialog s) (newPageTitle s) (pageData s)).

Definition setSaving (b : bool) : Task Live unit :=
  setCells (fun s =>
    mkState (project s) (currentPage s) (pages s) (loading s) b
      (showNewPageDialog s) (newPageTitle s) (pageData s)).

Definition setPageData (f : PageData -> PageData) : Task Live unit :=
  setCells (fun s =>
    mkState (project s) (currentPage s) (pages s) (loading s) (saving s)
      (showNewPageDialog s) (newPageTitle s) (f (pageData s))).

(** [setTimeout(callback, 100)] *)
Definition setTimeout (callback : Callback) : Task Live unit :=
  setState (fun l => mkLive (current l) (timers l ++ [callback])).

(** The object of [.update] in [handleSave]. *)
Definition changes (d : PageData) (stamp : string) : PageUpdate.t :=
  {| PageUpdate.title := title d;
     PageUpdate.slug := slug d;
     PageUpdate.content := content d;
     PageUpdate.meta_description := metaDescription d;
     PageUpdate.meta_keywords := metaKeywords d;
     PageUpdate.is_published := isPublished d;
     PageUpdate.updated_at := stamp |}.

(** [{ ...p, ...pageData, meta_description: ..., meta_keywords: ...,
       is_published: ... }], on the fields of [Page]. *)
Definition merged (p : Page.t) (d : PageData) : Page.t :=
  {| Page.id := Page.id p;
     Page.project_id := Page.project_id p;
     Page.title := title d;
     Page.slug := slug d;
     Page.content := content d;
     Page.meta_description := Some (metaDescription d);
     Page.meta_keywords := Some (metaKeywords d);
     Page.is_published := isPublished d;
     Page.order_index := Page.order_index p;
     Page.parent_id := Page.parent_id p;
     Page.created_at := Page.created_at p;
     Page.updated_at := Page.updated_at p |}.

(** [handleSave] of the render [env] *)
Definition handleSave (env : Render) : Task Live unit :=
  match currentPage (cells env) with
  | None => ret tt
  | Some page =>
      if negb (Js.truthy (projectId env)) then ret tt
      else
        try_finally
          (try_catch
             (setSaving true ;;
              stamp <- toISOString_now ;;
              r <- pages_update (changes (pageData (cells env)) stamp) (Page.id page) ;;
              throw_if_error r ;;
              (* Update local state *)
              setPages (map (fun p =>
                if String.eqb (Page.id p) (Page.id page)
                then merged p (pageData (cells env))
                else p)) ;;
              toast (success "Page saved successfully!"))
             (fun error =>
                console_error "Error saving page:" error ;;
                toast (failure "Failed to save page")))
          (setSaving false)
  end.

(** [handlePublish] of the render [env]: the [handleSave] it hands to
    [setTimeout] is the one of the same render. *)
Definition handlePublish (env : Render) : Task Live unit :=
  let newPublishState := negb (isPublished (pageData (cells env))) in
  setPageData (fun prev =>
    mkPageData (title prev) (slug prev) (content prev) (metaDescription prev)
      (metaKeywords prev) newPublishState) ;;
  (* Auto-save when publishing/unpublishing *)
  setTimeout (HandleSave env).

(** [deletePage(pageToDelete)] of the render [env] *)
Definition deletePage (env : Render) (pageToDelete : Page.t) : Task Live unit :=
  if (List.length (pages (cells env)) <=? 1)%nat then
    toast (failure "Cannot delete the last page")
  else
    try_catch
      (r <- pages_delete (Page.id pageToDelete) ;;
       throw_if_error r ;;
       let updatedPages :=
         filter (fun p => negb (String.eqb (Page.id p) (Page.id pageToDelete)))
           (pages (cells env)) in
       setPages (fun _ => updatedPages) ;;
       (* If we deleted the current page, navigate to the first remaining page *)
       match currentPage (cells env), updatedPages with
       | Some cur, first :: _ =>
           if String.eqb (Page.id cur) (Page.id pageToDelete)
           then onNavigate App.editor (projectId env) (Some (Page.id first))
           else ret tt
       | _, _ => ret tt
       end ;;
       toast (success "Page deleted successfully"))
      (fun error =>
         console_error "Error deleting page:" error ;;
         toast (failure "Failed to delete page")).

(** Running a callback. *)
Definition call (c : Callback) : Task Live unit :=
  match c with
  | HandleSave env => handleSave env
  end.

(** The render React makes of the live state. *)
Definition render (w : World Live) : Render :=
  {| projectId := App.selectedProjectId (app w);
     pageId := App.selectedPageId (app w);
     cells := current (ui w) |}.

(** A click on a button of the screen calls the handler of the render
    that is on the screen. *)
Definition click (handler : Render -> Task Live unit) : Task Live unit :=
  fun w => handler (render w) w.

(** The next timer fires. *)
Definition fire : Task Live unit :=
  fun w =>
    match timers (ui w) with
    | [] => (Returned tt, w)
    | c :: later =>
        call c
          (mkWorld (backend w) (faults w) (date_now w) (requests w) (toasts w)
             (console w) (app w) (mkLive (current (ui w)) later))
    end.

(** ** The rest of the component *)

(** The arguments of the [useState] calls. *)
Definition initialState : State :=
  {| project := None;
     currentPage := None;
     pages := [];
     loading := true;
     saving := false;
     showNewPageDialog := false;
     newPageTitle := "";
     pageData := mkPageData "" "" "" "" "" false |}.

Definition setCurrentPage (p : option Page.t) : Task Live unit :=
  setCells (fun s =>
    mkState (project s) p (pages s) (loading s) (saving s)
      (showNewPageDialog s) (newPageTitle s) (pageData s)).

Definition setShowNewPageDialog (b : bool) : Task Live unit :=
  setCells (fun s =>
    mkState (project s) (currentPage s) (pages s) (loading s) (saving s)
      b (newPageTitle s) (pageData s)).

Definition setNewPageTitle (t : string) : Task Live unit :=
  setCells (fun s =>
    mkState (project s) (currentPage s) (pages s) (loading s) (saving s)
      (showNewPageDialog s) t (pageData s)).

(** The object the selection effect hands to [setPageData]. *)
Definition pageDataOf (page : Page.t) : PageData :=
  {| title := Page.title page;
     slug := Page.slug page;
     content := Js.or_string (Some (Page.content page)) "";
     metaDescription := Js.or_string (Page.meta_description page) "";
     metaKeywords := Js.or_string (Page.meta_keywords page) "";
     isPublished := Page.is_published page || false |}.

(** The effect on [pageId], [pages] and [projectId] of the render
    [env]. *)
Definition selectPage (env : Render) : Task Live unit :=
  match pages (cells env) with
  | [] => ret tt
  | firstPage :: _ =>
      if Js.truthy (pageId env) then
        match find (fun p => Js.strict_eq (Page.id p) (pageId env))
                (pages (cells env)) with
        | Some page =>
            setCurrentPage (Some page) ;;
            setPageData (fun _ => pageDataOf page)
        | None => ret tt
        end
      else
        (* Select first page if no specific page is selected *)
        setCurrentPage (Some firstPage) ;;
        setPageData (fun _ => pageDataOf firstPage) ;;
        (* Update URL to reflect the selected page *)
        onNavigate App.editor (projectId env) (Some (Page.id firstPage))
  end.

(** What the component returns: the four early returns and the editor. *)
Inductive Screen : Type :=
| LoadingProject
| ProjectNotFound
| NoPagesYet
| LoadingPage
| Editing (page : Page.t).

Definition screen (s : State) : Screen :=
  if loading s then LoadingProject
  else
    match project s with
    | None => ProjectNotFound
    | Some _ =>
        match pages s with
        | [] => NoPagesYet
        | _ :: _ =>
            match currentPage s with
            | None => LoadingPage
            | Some page => Editing page
            end
        end
    end.

(** [/[a-z0-9]/] *)
Definition isSlugChar (c : ascii) : bool :=
  let n := nat_of_ascii c in
  ((97 <=? n) && (n <=? 122) || (48 <=? n) && (n <=? 57))%nat.

Definition hyphen : ascii := "-"%char.

(** [.replace(/[^a-z0-9]+/g, '-')]; [inRun] tells that the code unit
    before [s] belongs to a run that is already replaced. *)
Fixpoint hyphenate (inRun : bool) (s : string) : string :=
  match s with
  | EmptyString => EmptyString
  | String c rest =>
      if isSlugChar c then String c (hyphenate false rest)
      else if inRun then hyphenate true rest
      else String hyphen (hyphenate true rest)
  end.

(** [.replace(/^-|-$/g, '')]: a hyphen at the start goes, and so does a
    hyphen at the end that is not the same one. *)
Fixpoint dropLastHyphen (s : string) : string :=
  match s with
  | EmptyString => EmptyString
  | String c EmptyString => if Ascii.eqb c hyphen then EmptyString else s
  | String c rest => String c (dropLastHyphen rest)
  end.

Definition stripHyphens (s : string) : string :=
  match s with
  | String c rest => if Ascii.eqb c hyphen then dropLastHyphen rest else dropLastHyphen s
  | EmptyString => EmptyString
  end.

(** The slug [createNewPage] derives from the title. *)
Definition slugify (pageTitle : string) : string :=
  stripHyphens (hyphenate false (Js.toLowerCase pageTitle)).

(** The object of [.insert] in [createNewPage]. *)
Definition newPageRow (project_id pageTitle : string) (orderIndex : nat)
  : PageInsert.t :=
  {| PageInsert.project_id := project_id;
     PageInsert.title := pageTitle;
     PageInsert.slug := slugify pageTitle;
     PageInsert.content :=
       String.append "# "
         (String.append pageTitle
            (String.append (String (ascii_of_nat 10) EmptyString)
               (String.append (String (ascii_of_nat 10) EmptyString)
                  "Start writing your content here...")));
     PageInsert.meta_description := Some (String.append pageTitle " page");
     PageInsert.meta_keywords := None;
     PageInsert.is_published := false;
     PageInsert.order_index := Z.of_nat orderIndex;
     PageInsert.parent_id := None |}.

(** [supabase.from('pages').insert(row).select().single()] *)
Definition pages_insert_single (row : PageInsert.t) : Task Live (Response Page.t) :=
  send (PagesInsert [row]) (failed rejected)
    (fun b =>
       (succeeded (storePage (gen_id (next_id b)) (now b) row),
        insertPages [row] b)).

(** [createNewPage] of the render [env]; past the guard [projectId] is a
    string that is not empty. *)
Definition createNewPage (env : Render) : Task Live unit :=
  match projectId env with
  | None => ret tt
  | Some project_id =>
      if negb (Js.truthy_string project_id)
         || negb (Js.truthy_string (Js.trim (newPageTitle (cells env))))
      then ret tt
      else
        try_catch
          (let orderIndex := List.length (pages (cells env)) in
           r <- pages_insert_single
                  (newPageRow project_id (newPageTitle (cells env)) orderIndex) ;;
           throw_if_error r ;;
           created <- deref (data r) ;;
           setPages (fun prev => prev ++ [created]) ;;
           setShowNewPageDialog false ;;
           setNewPageTitle "" ;;
           toast (success "Page created successfully!") ;;
           (* Navigate to the new page *)
           onNavigate App.editor (projectId env) (Some (Page.id created)))
          (fun error =>
             console_error "Error creating page:" error ;;
             toast (failure "Failed to create page"))
  end.

(** A well-formed slug, read after a hyphen or at the start
    ([afterHyphen]) or after a letter or digit: letters, digits and
    hyphens only, and every hyphen is followed by a letter or digit. *)
Fixpoint cleanFrom (afterHyphen : bool) (s : string) : bool :=
  match s with
  | EmptyString => negb afterHyphen
  | String c rest =>
      if isSlugChar c then cleanFrom false rest
      else Ascii.eqb c hyphen && negb afterHyphen && cleanFrom true rest
  end.

(** [/[A-Za-z0-9]/] *)
Definition isLetterOrDigit (c : ascii) : bool :=
  let n := nat_of_ascii c in
  ((65 <=? n) && (n <=? 90) || (97 <=? n) && (n <=? 122)
   || (48 <=? n) && (n <=? 57))%nat.

(** A title without any ASCII letter or digit. *)
Fixpoint wordless (s : string) : bool :=
  match s with
  | EmptyString => true
  | String c rest => negb (isLetterOrDigit c) && wordless rest
  end.

(** A string without any code unit that matches [/[a-z0-9]/]. *)
Fixpoint plain (s : string) : bool :=
  match s with
  | EmptyString => true
  | String c rest => negb (isSlugChar c) && plain rest
  end.

(** What the first replacement leaves, read after a replaced run
    ([afterHyphen]) or not: letters, digits and hyphens, no hyphen right
    after another. *)
Fixpoint singleHyphens (afterHyphen : bool) (s : string) : bool :=
  match s with
  | EmptyString => true
  | String c rest =>
      if isSlugChar c then singleHyphens false rest
      else Ascii.eqb c hyphen && negb afterHyphen && singleHyphens true rest
  end.

(** Two page records that differ at most in [updated_at]. *)
Definition sameButStamp (p q : Page.t) : Prop :=
  Page.id p = Page.id q
  /\ Page.project_id p = Page.project_id q
  /\ Page.title p = Page.title q
  /\ Page.slug p = Page.slug q
  /\ Page.content p = Page.content q
  /\ Page.meta_description p = Page.meta_description q
  /\ Page.meta_keywords p = Page.meta_keywords q
  /\ Page.is_published p = Page.is_published q
  /\ Page.order_index p = Page.order_index q
  /\ Page.parent_id p = Page.parent_id q
  /\ Page.created_at p = Page.created_at q.

End PageEditor.

(* ===================================================================== *)
(** * components/pages/Dashboard.tsx                                      *)
(* ===================================================================== *)

Module Dashboard.

Import Supabase Ui.
Local Open Scope task_scope.

(** The object of the [stats] cell. *)
Record Stats : Type := mkStats {
  totalProjects : Z;
  publishedSites : Z;
  totalViews : Z;
  activeUsers : Z
}.

(** The [useState] cells of the component. *)
Record State : Type := mkState {
  projects : list Project.t;
  stats : Stats;
  loading : bool
}.

Definition initialState : State :=
  {| projects := [];
     stats := mkStats 0 0 0 0;
     loading := true |}.

Definition setProjects (ps : list Project.t) : Task State unit :=
  setState (fun s => mkState ps (stats s) (loading s)).

Definition setStats (st : Stats) : Task State unit :=
  setState (fun s => mkState (projects s) st (loading s)).

Definition setLoading (b : bool) : Task State unit :=
  setState (fun s => mkState (projects s) (stats s) b).

(** The statistics [loadDashboardData] derives from the two answers. *)
Definition calculateStats (projectsData : option (list Project.t))
  (analyticsData : option (list Analytics.t)) : Stats :=
  let totalProjects := Js.or_zero (Js.length_opt projectsData) in
  let publishedSites :=
    Js.or_zero (Js.length_opt (option_map (filter Project.is_published) projectsData)) in
  let totalViews := Js.or_zero (Js.length_opt analyticsData) in
  {| totalProjects := totalProjects;
     publishedSites := publishedSites;
     totalViews := totalViews;
     (* Rough estimate *)
     activeUsers := Js.Math_floor (Js.mul (Js.ofInt totalViews) Js.lit_0_4) |}.

(** [loadDashboardData] *)
Definition loadDashboardData : Task State unit :=
  try_finally
    (try_catch
       ((* Load projects *)
        projectsAnswer <- projects_select_recent 5 ;;
        throw_if_error projectsAnswer ;;
        (* Load analytics for stats *)
        analyticsAnswer <- analytics_select ;;
        throw_if_error analyticsAnswer ;;
        setProjects (Js.or_empty (data projectsAnswer)) ;;
        (* Calculate stats *)
        setStats (calculateStats (data projectsAnswer) (data analyticsAnswer)))
       (fun error => console_error "Error loading dashboard data:" error))
    (setLoading false).

End Dashboard.


(* ===================================================================== *)
(** * components/editor/MarkdownEditor.tsx                                *)
(* ===================================================================== *)

Module MarkdownEditor.

(** The counts the effect on [content] puts into [wordCount] and
    [charCount]. *)
Definition countWords (content : string) : nat :=
  List.length
    (filter (fun word => (0 <? String.length word)%nat)
       (Js.split_spaces (Js.trim content))).

Definition countChars (content : string) : nat := String.length content.

(** The selection of the text area: [selectionStart] and
    [selectionEnd]. *)
Record Selection : Type := mkSelection {
  selectionStart : nat;
  selectionEnd : nat
}.

(** What [insertMarkdown] does: the content handed to [onChange] and the
    range handed to [setSelectionRange]. *)
Record Edit : Type := mkEdit {
  newContent : string;
  restored : Selection
}.

(** [insertMarkdown(before, after)] on the [content] of the render;
    [textarea] is what [document.querySelector('textarea')] finds, and
    without one nothing happens. *)
Definition insertMarkdown (content : string) (textarea : option Selection)
  (before after : string) : option Edit :=
  match textarea with
  | None => None
  | Some sel =>
      let start := selectionStart sel in
      let end_ := selectionEnd sel in
      let selectedText := Js.substring content start end_ in
      Some
        {| newContent :=
             String.append (Js.substring content 0 start)
               (String.append before
                  (String.append selectedText
                     (String.append after
                        (Js.substring content end_ (String.length content)))));
           (* Restore cursor position *)
           restored :=
             {| selectionStart := start + String.length before;
                selectionEnd :=
                  start + String.length before + String.length selectedText |} |}
  end.

(** The buttons of the toolbar. *)
Inductive Button : Type :=
| Bold | Italic | Link | Image | ListItem | Code.

Definition action (button : Button) (content : string)
  (textarea : option Selection) : option Edit :=
  match button with
  | Bold => insertMarkdown content textarea "**" "**"
  | Italic => insertMarkdown content textarea "*" "*"
  | Link => insertMarkdown content textarea "[" "](url)"
  | Image => insertMarkdown content textarea "![alt](" ")"
  | ListItem => insertMarkdown content textarea "- " ""
  | Code => insertMarkdown content textarea "`" "`"
  end.

(** The number of maximal runs of code units that are not white space:
    the code units that are not white space and come first or right
    after white space. *)
Fixpoint wordStarts (afterSpace : bool) (s : string) : nat :=
  match s with
  | EmptyString => 0
  | String c rest =>
      if Js.isWhiteSpace c then wordStarts true rest
      else (if afterSpace then 1 else 0) + wordStarts false rest
  end.

(** A content of white space only. *)
Fixpoint blank (s : string) : bool :=
  match s with
  | EmptyString => true
  | String c rest => Js.isWhiteSpace c && blank rest
  end.

End MarkdownEditor.

(* ===================================================================== *)
(** * components/layout/Sidebar.tsx                                       *)
(* ===================================================================== *)

Module Sidebar.

(** [xs.includes(x)] *)
Definition includes (xs : list string) (x : string) : bool :=
  existsb (fun y => String.eqb y x) xs.

(** The updater [toggleProject(projectId)] hands to
    [setExpandedProjects]. *)
Definition toggleProject (projectId : string) (prev : list string) : list string :=
  if includes prev projectId
  then filter (fun id => negb (String.eqb id projectId)) prev
  else prev ++ [projectId].

(** The effect on [selectedProjectId] and [expandedProjects]: the test
    reads the [expandedProjects] of the render, the update the cell. *)
Definition expandSelected (selectedProjectId : option string)
  (expandedProjects prev : list string) : list string :=
  match selectedProjectId with
  | Some id =>
      if Js.truthy_string id && negb (includes expandedProjects id)
      then prev ++ [id]
      else prev
  | None => prev
  end.

(** The effect on a render that shows the cell as it is. *)
Definition settle (selectedProjectId : option string) (expanded : list string)
  : list string :=
  expandSelected selectedProjectId expanded expanded.

End Sidebar.
(* ===================================================================== *)
(** * Concrete states, calls and worlds                                   *)
(* ===================================================================== *)

Module Scenario.

Import App Supabase Ui.

(** A state in which project [p1] is selected, and a call that passes the
    empty string as [projectId]. *)
Definition p1Selected : AppState :=
  {| currentView := dashboard;
     selectedProjectId := Some "p1";
     selectedPageId := None;
     user := Some "u1" |}.

Definition emptyProjectCall : NavCall :=
  {| nav_view := editor; nav_projectId := Some ""; nav_pageId := None |}.

(** A backend in which user [u1] is signed in and owns project [p1] with
    three pages, one of them published. *)
Definition stamp : string := "2025-07-17T08:00:00.000Z".

Definition siteP1 : Project.t :=
  {| Project.id := "p1";
     Project.name := "Site";
     Project.description := Some "A site";
     Project.domain := None;
     Project.subdomain := Some "site";
     Project.created_at := stamp;
     Project.updated_at := stamp;
     Project.user_id := "u1";
     Project.is_published := true;
     Project.theme_settings := None |}.

Definition pageOf (key title slug : string) (published : bool) (index : Z)
  : Page.t :=
  {| Page.id := key;
     Page.project_id := "p1";
     Page.title := title;
     Page.slug := slug;
     Page.content := "# " ++ title;
     Page.meta_description := Some title;
     Page.meta_keywords := None;
     Page.is_published := published;
     Page.order_index := index;
     Page.parent_id := None;
     Page.created_at := stamp;
     Page.updated_at := stamp |}.

Definition homeP1 : Page.t := pageOf "pg1" "Home" "home" true 0.
Definition aboutP1 : Page.t := pageOf "pg2" "About" "about" false 1.
Definition contactP1 : Page.t := pageOf "pg3" "Contact" "contact" false 2.

Definition view (key : string) : Analytics.t :=
  {| Analytics.id := key;
     Analytics.project_id := "p1";
     Analytics.page_id := Some "pg1";
     Analytics.event_type := "page_view";
     Analytics.event_data := None;
     Analytics.timestamp := stamp;
     Analytics.user_agent := None;
     Analytics.ip_address := None |}.

Definition hosted : Backend :=
  {| session := Some "u1";
     Supabase.projects := [siteP1];
     pages := [homeP1; aboutP1; contactP1];
     analytics := [view "a1"; view "a2"; view "a3"; view "a4"; view "a5";
                   view "a6"; view "a7"];
     next_id := 10;
     now := stamp |}.

(** The project manager with ["Test"] typed into the new-project form. *)
Definition testForm : ProjectManager.State :=
  {| ProjectManager.projects := [siteP1];
     ProjectManager.loading := false;
     ProjectManager.showNewProjectDialog := true;
     ProjectManager.showEditProjectDialog := false;
     ProjectManager.editingProject := None;
     ProjectManager.newProject := ProjectManager.mkForm "Test" "" "";
     ProjectManager.editProject := ProjectManager.emptyForm |}.

(** The same with only blanks typed into the form. *)
Definition blankForm : ProjectManager.State :=
  {| ProjectManager.projects := [siteP1];
     ProjectManager.loading := false;
     ProjectManager.showNewProjectDialog := true;
     ProjectManager.showEditProjectDialog := false;
     ProjectManager.editingProject := None;
     ProjectManager.newProject := ProjectManager.mkForm "   " "" "";
     ProjectManager.editProject := ProjectManager.emptyForm |}.

Definition managerWorld (cells : ProjectManager.State)
  : World ProjectManager.State :=
  mount hosted [] stamp (navigateToView App.projects None None initialAppState) cells.

(** The page editor showing the unpublished page [aboutP1] of project
    [p1]. *)
Definition aboutCells : PageEditor.State :=
  {| PageEditor.project := Some siteP1;
     PageEditor.currentPage := Some aboutP1;
     PageEditor.pages := [homeP1; aboutP1; contactP1];
     PageEditor.loading := false;
     PageEditor.saving := false;
     PageEditor.showNewPageDialog := false;
     PageEditor.newPageTitle := "";
     PageEditor.pageData :=
       PageEditor.mkPageData "About" "about" "# About" "About" "" false |}.

Definition aboutEditor : World PageEditor.Live :=
  mount hosted [] stamp
    (navigateToView editor (Some "p1") (Some "pg2") initialAppState)
    (PageEditor.mkLive aboutCells []).

(** The page editor of a project whose only page is [homeP1]. *)
Definition onePageCells : PageEditor.State :=
  {| PageEditor.project := Some siteP1;
     PageEditor.currentPage := Some homeP1;
     PageEditor.pages := [homeP1];
     PageEditor.loading := false;
     PageEditor.saving := false;
     PageEditor.showNewPageDialog := false;
     PageEditor.newPageTitle := "";
     PageEditor.pageData :=
       PageEditor.mkPageData "Home" "home" "# Home" "Home" "" true |}.

Definition onePageEditor : World PageEditor.Live :=
  mount hosted [] stamp
    (navigateToView editor (Some "p1") (Some "pg1") initialAppState)
    (PageEditor.mkLive onePageCells []).

(** The dashboard at mount. *)
Definition dashboardWorld : World Dashboard.State :=
  mount hosted [] stamp initialAppState Dashboard.initialState.

(** The same world with a backend that rejects the next request. *)
Definition refusing {S : Type} (w : World S) : World S :=
  mkWorld (backend w) [true] (date_now w) (requests w) (toasts w) (console w)
    (app w) (ui w).

(** The page editor with a title typed into the new-page dialog. *)
Definition typing (pageTitle : string) : World PageEditor.Live :=
  mount hosted [] stamp
    (navigateToView editor (Some "p1") (Some "pg2") initialAppState)
    (PageEditor.mkLive
       (PageEditor.mkState (Some siteP1) (Some aboutP1)
          [homeP1; aboutP1; contactP1] false false true pageTitle
          (PageEditor.mkPageData "About" "about" "# About" "About" "" false))
       []).

(** The page editor of project [p1], loaded, while the page selected
    before belongs to another project. *)
Definition stalePage : World PageEditor.Live :=
  mount hosted [] stamp
    (navigateToView editor (Some "p1") None
       (navigateToView editor (Some "p0") (Some "pg-of-p0") initialAppState))
    (PageEditor.mkLive
       (PageEditor.mkState (Some siteP1) None
          [homeP1; aboutP1; contactP1] false false false ""
          (PageEditor.mkPageData "" "" "" "" "" false))
       []).

(** The page editor of project [p1], loaded, with no page selected
    yet. *)
Definition unselected : World PageEditor.Live :=
  mount hosted [] stamp
    (navigateToView editor (Some "p1") None initialAppState)
    (PageEditor.mkLive
       (PageEditor.mkState (Some siteP1) None
          [homeP1; aboutP1; contactP1] false false false ""
          (PageEditor.mkPageData "" "" "" "" "" false))
       []).

(** A backend like [hosted] where nobody is signed in. *)
Definition signedOut : Backend :=
  {| session := None;
     Supabase.projects := [siteP1];
     pages := [homeP1; aboutP1; contactP1];
     analytics := [];
     next_id := 10;
     now := stamp |}.

(** The project manager in front of a backend [b] that rejects the
    requests marked in [fs], after page [pg2] was edited. *)
Definition managerAt (b : Backend) (fs : list bool)
  (cells : ProjectManager.State) : World ProjectManager.State :=
  mount b fs stamp
    (navigateToView App.projects None None
       (navigateToView editor (Some "p1") (Some "pg2") initialAppState))
    cells.

(** A project without pages. *)
Definition emptySite : Project.t :=
  {| Project.id := "p9";
     Project.name := "Empty";
     Project.description := None;
     Project.domain := None;
     Project.subdomain := None;
     Project.created_at := stamp;
     Project.updated_at := stamp;
     Project.user_id := "u1";
     Project.is_published := false;
     Project.theme_settings := None |}.

(** The form with a name in blanks and no subdomain. *)
Definition paddedForm : ProjectManager.State :=
  {| ProjectManager.projects := [siteP1];
     ProjectManager.loading := false;
     ProjectManager.showNewProjectDialog := true;
     ProjectManager.showEditProjectDialog := false;
     ProjectManager.editingProject := None;
     ProjectManager.newProject := ProjectManager.mkForm " Blog " "My blog" "";
     ProjectManager.editProject := ProjectManager.emptyForm |}.

End Scenario.

(* ===================================================================== *)
(** * Properties of the navigation state and of the view router           *)
(* ===================================================================== *)

Module NavigationLaws.

Import App Scenario.

Lemma truthy_Some_iff (s : string) : Js.truthy (Some s) = true <-> s <> "".
Proof.
  destruct s as [|c rest]; simpl; split; intros H.
  - discriminate H.
  - contradiction H; reflexivity.
  - discriminate.
  - reflexivity.
Qed.

Lemma or_not_None (a b : option string) : b <> None -> Js.or a b <> None.
Proof.
  intros Hb. unfold Js.or. destruct a as [s|]; simpl.
  - destruct (Js.truthy_string s); [discriminate | exact Hb].
  - exact Hb.
Qed.

Lemma navigateAll_app (xs ys : list NavCall) (s : AppState) :
  navigateAll (xs ++ ys) s = navigateAll ys (navigateAll xs s).
Proof. unfold navigateAll. apply fold_left_app. Qed.

Lemma navigateAll_cons (c : NavCall) (calls : list NavCall) (s : AppState) :
  navigateAll (c :: calls) s = navigateAll calls (navigate c s).
Proof. reflexivity. Qed.

(** The project selection after a run of calls is the most recent truthy
    project argument. *)
Lemma selectedProjectId_navigateAll (calls : list NavCall) (s : AppState) :
  selectedProjectId (navigateAll calls s)
  = mostRecent Js.truthy (selectedProjectId s) (map nav_projectId calls).
Proof.
  revert s. induction calls as [|c calls IH]; intros s.
  - reflexivity.
  - rewrite navigateAll_cons, IH. reflexivity.
Qed.

Lemma selectedPageId_navigateAll (calls : list NavCall) (s : AppState) :
  selectedPageId (navigateAll calls s)
  = mostRecent Js.truthy (selectedPageId s) (map nav_pageId calls).
Proof.
  revert s. induction calls as [|c calls IH]; intros s.
  - reflexivity.
  - rewrite navigateAll_cons, IH. reflexivity.
Qed.

Lemma user_navigateAll (calls : list NavCall) (s : AppState) :
  user (navigateAll calls s) = user s.
Proof.
  revert s. induction calls as [|c calls IH]; intros s.
  - reflexivity.
  - rewrite navigateAll_cons, IH. reflexivity.
Qed.

(** C1, as stated, fails: the empty string is a passed (non-absent)
    [projectId], the most recent one of this run, and the selection after
    the call is still ["p1"]. *)
Lemma merge_retain_nonAbsent_fails :
  selectedProjectId (navigateAll [emptyProjectCall] p1Selected) = Some "p1"
  /\ mostRecent nonAbsent (selectedProjectId p1Selected)
       (map nav_projectId [emptyProjectCall]) = Some ""
  /\ selectedProjectId (navigateAll [emptyProjectCall] p1Selected)
     <> mostRecent nonAbsent (selectedProjectId p1Selected)
          (map nav_projectId [emptyProjectCall]).
Proof.
  split; [reflexivity | split; [reflexivity | ]].
  simpl. intros H. discriminate H.
Qed.

(** C1 (amended).  Merge-retain law: from every starting state and after
    every call of every finite sequence of [navigateToView] calls,
    [currentView] is the [view] of that call, [selectedProjectId] is the
    most recently passed truthy [projectId] (neither absent nor the empty
    string), or the initial value when there was none, and likewise
    [selectedPageId] for [pageId]; absent and empty arguments retain the
    previous value. *)
Theorem merge_retain_law (s0 : AppState) (earlier : list NavCall) (c : NavCall) :
  currentView (navigateAll (earlier ++ [c]) s0) = nav_view c
  /\ selectedProjectId (navigateAll (earlier ++ [c]) s0)
     = mostRecent Js.truthy (selectedProjectId s0)
         (map nav_projectId (earlier ++ [c]))
  /\ selectedPageId (navigateAll (earlier ++ [c]) s0)
     = mostRecent Js.truthy (selectedPageId s0)
         (map nav_pageId (earlier ++ [c])).
Proof.
  split; [| split].
  - rewrite navigateAll_app. reflexivity.
  - apply selectedProjectId_navigateAll.
  - apply selectedPageId_navigateAll.
Qed.

(** C2.  Back-and-forth scenario: from every state,
    [navigateToView('editor', 'p1')], [navigateToView('dashboard')] and
    [navigateToView('editor')] end in the editor with project ["p1"]
    selected and the page selection the state started with. *)
Theorem back_and_forth (s : AppState) :
  navigateToView editor None None
    (navigateToView dashboard None None
       (navigateToView editor (Some "p1") None s))
  = {| currentView := editor;
       selectedProjectId := Some "p1";
       selectedPageId := selectedPageId s;
       user := user s |}.
Proof. reflexivity. Qed.

(** C3.  Idempotence: [navigateToView('dashboard')] twice in a row gives
    the state that one call gives. *)
Theorem navigate_dashboard_idempotent (s : AppState) :
  navigateToView dashboard None None (navigateToView dashboard None None s)
  = navigateToView dashboard None None s.
Proof. reflexivity. Qed.

Lemma selection_fold (events : list Event) (s t : AppState) :
  selection s = selection t ->
  selection (fold_left handle events s)
  = selection (navigateAll (navigations events) t).
Proof.
  revert s t. induction events as [|e events IH]; intros s t Hst.
  - exact Hst.
  - destruct e as [u|c]; cbn [fold_left navigations handle].
    + apply IH. rewrite <- Hst. reflexivity.
    + rewrite navigateAll_cons. apply IH.
      unfold selection in *. injection Hst as Hv Hp Hg.
      unfold navigate, navigateToView; simpl. rewrite Hp, Hg. reflexivity.
Qed.

(** C9.  The router is total: each of the six tags renders its screen,
    and every string is one of the six tags or renders the dashboard.
    The navigation state starts as the dashboard with no project and no
    page selected, and nothing but [navigateToView] changes it afterwards:
    session events leave it alone. *)
Theorem router_total_and_initial_state :
  (forall pid pg,
      renderSwitch "dashboard" pid pg = DashboardScreen
      /\ renderSwitch "editor" pid pg = PageEditorScreen pid pg
      /\ renderSwitch "projects" pid pg = ProjectManagerScreen
      /\ renderSwitch "templates" pid pg = TemplatesPlaceholder
      /\ renderSwitch "analytics" pid pg = AnalyticsPlaceholder
      /\ renderSwitch "settings" pid pg = SettingsPlaceholder)
  /\ (forall tag pid pg,
         (exists v, tag = view_tag v) \/ renderSwitch tag pid pg = DashboardScreen)
  /\ (forall s,
         renderView s
         = match currentView s with
           | dashboard => DashboardScreen
           | editor => PageEditorScreen (selectedProjectId s) (selectedPageId s)
           | projects => ProjectManagerScreen
           | templates => TemplatesPlaceholder
           | analytics => AnalyticsPlaceholder
           | settings => SettingsPlaceholder
           end)
  /\ lifetime [] = {| currentView := dashboard;
                      selectedProjectId := None;
                      selectedPageId := None;
                      user := None |}
  /\ (forall events,
         selection (lifetime events)
         = selection (navigateAll (navigations events) initialAppState)).
Proof.
  split; [| split; [| split; [| split]]].
  - intros pid pg. repeat split.
  - intros tag pid pg. unfold renderSwitch.
    destruct (String.eqb_spec tag "dashboard") as [->|_];
      [left; exists dashboard; reflexivity|].
    destruct (String.eqb_spec tag "editor") as [->|_];
      [left; exists editor; reflexivity|].
    destruct (String.eqb_spec tag "projects") as [->|_];
      [left; exists projects; reflexivity|].
    destruct (String.eqb_spec tag "templates") as [->|_];
      [left; exists templates; reflexivity|].
    destruct (String.eqb_spec tag "analytics") as [->|_];
      [left; exists analytics; reflexivity|].
    destruct (String.eqb_spec tag "settings") as [->|_];
      [left; exists settings; reflexivity|].
    right; reflexivity.
  - intros s. unfold renderView. destruct (currentView s); reflexivity.
  - reflexivity.
  - intros events. unfold lifetime. apply selection_fold. reflexivity.
Qed.

(** C10.  No-clear invariant: once a project (a page) is selected, no
    sequence of [navigateToView] calls makes the selection [null] again;
    and the empty string passed as [projectId] or [pageId] is treated as
    absent: the previous selection is retained. *)
Theorem selection_never_cleared (s : AppState) (calls : list NavCall) :
  (selectedProjectId s <> None ->
   selectedProjectId (navigateAll calls s) <> None)
  /\ (selectedPageId s <> None ->
      selectedPageId (navigateAll calls s) <> None)
  /\ (forall view pg,
         selectedProjectId (navigateToView view (Some "") pg s)
         = selectedProjectId s)
  /\ (forall view pid,
         selectedPageId (navigateToView view pid (Some "") s)
         = selectedPageId s).
Proof.
  split; [| split; [| split]].
  - revert s. induction calls as [|c calls IH]; intros s Hs.
    + exact Hs.
    + rewrite navigateAll_cons. apply IH. simpl. apply or_not_None, Hs.
  - revert s. induction calls as [|c calls IH]; intros s Hs.
    + exact Hs.
    + rewrite navigateAll_cons. apply IH. simpl. apply or_not_None, Hs.
  - reflexivity.
  - reflexivity.
Qed.

Lemma selection_never_cleared_witness :
  selectedProjectId p1Selected <> None
  /\ selectedProjectId
       (navigateAll [emptyProjectCall; mkNavCall dashboard None (Some "")] p1Selected)
     <> None.
Proof.
  split.
  - simpl. discriminate.
  - apply (proj1 (selection_never_cleared p1Selected
                    [emptyProjectCall; mkNavCall dashboard None (Some "")])).
    simpl. discriminate.
Defined.

End NavigationLaws.

(* ===================================================================== *)
(** * Properties of the requests of a handler                             *)
(* ===================================================================== *)

Module UiFacts.

Import Supabase Ui.

Lemma granted_S (n : nat) (fs : list bool) :
  granted (S n) fs = true -> hd false fs = false /\ granted n (tl fs) = true.
Proof.
  simpl. intros H. apply andb_true_iff in H. destruct H as [H1 H2].
  split; [| exact H2]. destruct (hd false fs); [discriminate H1 | reflexivity].
Qed.

(** A request the backend does not reject is answered by [serve]. *)
Lemma send_granted {S A : Type} (r : Request) (refused : A)
  (serve : Backend -> A * Backend) (w : World S) :
  hd false (faults w) = false ->
  send r refused serve w
  = (Returned (fst (serve (backend w))),
     mkWorld (snd (serve (backend w))) (tl (faults w)) (date_now w)
       (requests w ++ [r]) (toasts w) (console w) (app w) (ui w)).
Proof.
  intros H. unfold send.
  destruct (faults w) as [|[|] later]; simpl in H; try discriminate H;
    destruct (serve (backend w)); reflexivity.
Qed.

(** A request the backend rejects leaves the backend as it was. *)
Lemma send_rejected {S A : Type} (r : Request) (refused : A)
  (serve : Backend -> A * Backend) (w : World S) :
  hd false (faults w) = true ->
  send r refused serve w
  = (Returned refused,
     mkWorld (backend w) (tl (faults w)) (date_now w)
       (requests w ++ [r]) (toasts w) (console w) (app w) (ui w)).
Proof.
  intros H. unfold send.
  destruct (faults w) as [|[|] later]; simpl in H; try discriminate H.
  reflexivity.
Qed.

End UiFacts.

(* ===================================================================== *)
(** * Properties of the project manager                                   *)
(* ===================================================================== *)

Module ProjectManagerLaws.

Import Supabase Ui ProjectManager UiFacts Scenario.

Lemma copyOf_storePage (owner : Project.t) (key stamp : string) (original : Page.t) :
  copyOf owner original (storePage key stamp (copyPage (Project.id owner) original)).
Proof. unfold copyOf. simpl. repeat split. Qed.

(** With an empty name the handler stops at the notification. *)
Lemma createProject_blank (env : State) (w : World State) :
  Js.trim (name (newProject env)) = "" ->
  createProject env w
  = (Returned tt,
     mkWorld (backend w) (faults w) (date_now w) (requests w)
       (toasts w ++ [failure "Project name is required"]) (console w) (app w) (ui w)).
Proof.
  intros H. unfold createProject. rewrite H. reflexivity.
Qed.

(** The run of [createProject] for a signed-in user whose requests the
    backend serves. *)
Lemma createProject_served (env : State) (w : World State) (user_id : string) :
  Js.trim (name (newProject env)) <> "" ->
  session (backend w) = Some user_id ->
  granted 3 (faults w) = true ->
  let row := newProjectRow (newProject env) user_id in
  let created := storeProject (gen_id (next_id (backend w))) (now (backend w)) row in
  let home := homePage (Project.id created) (name (newProject env)) in
  backend (run (createProject env) w)
  = insertPages [home] (snd (insertProject row (backend w)))
  /\ requests (run (createProject env) w)
     = requests w ++ [AuthGetUser; ProjectsInsert row; PagesInsert [home]].
Proof.
  intros Hname Hsession Hgranted.
  apply granted_S in Hgranted. destruct Hgranted as [H1 Hgranted].
  apply granted_S in Hgranted. destruct Hgranted as [H2 Hgranted].
  apply granted_S in Hgranted. destruct Hgranted as [H3 _].
  unfold run, createProject.
  destruct (Js.trim (name (newProject env))) as [|c rest] eqn:Htrim;
    [contradiction Hname; reflexivity|].
  cbn [Js.truthy_string negb].
  destruct w as [b fs stamp reqs ts con a u].
  destruct b as [sess prj pgs an nid nw].
  cbn [backend faults session] in *. subst sess.
  destruct fs as [|[|] [|[|] [|[|] fs]]]; cbn [hd tl] in *; try discriminate;
    (split; [reflexivity | cbn; rewrite <- ?app_assoc; reflexivity]).
Qed.

(** Project creation where every request is served: with a name that is
    empty after trimming, no request is sent and the backend is as
    before; with any other name, for a signed-in user whose three
    requests the backend serves, exactly one page record is inserted, for
    the project just created, with title ["Home"], slug ["home"],
    [is_published = false] and [order_index = 0]. *)
Theorem createProject_inserts_home_page (env : State) :
  (Js.trim (name (newProject env)) = "" ->
   forall w,
     requests (run (createProject env) w) = requests w
     /\ backend (run (createProject env) w) = backend w)
  /\ (Js.trim (name (newProject env)) <> "" ->
      forall w user_id,
        session (backend w) = Some user_id ->
        granted 3 (faults w) = true ->
        exists created home,
          Supabase.projects (backend (run (createProject env) w))
          = Supabase.projects (backend w) ++ [created]
          /\ pages (backend (run (createProject env) w))
             = pages (backend w) ++ [home]
          /\ Page.project_id home = Project.id created
          /\ Page.title home = "Home"
          /\ Page.slug home = "home"
          /\ Page.is_published home = false
          /\ Page.order_index home = 0%Z
          /\ requests (run (createProject env) w)
             = requests w
               ++ [AuthGetUser;
                   ProjectsInsert (newProjectRow (newProject env) user_id);
                   PagesInsert [homePage (Project.id created) (name (newProject env))]]).
Proof.
  split.
  - intros Hblank w. unfold run. rewrite createProject_blank by exact Hblank.
    split; reflexivity.
  - intros Hname w user_id Hsession Hgranted.
    destruct (createProject_served env w user_id Hname Hsession Hgranted)
      as [Hbackend Hrequests].
    eexists. eexists. rewrite Hbackend, Hrequests.
    repeat split.
Qed.

Lemma createProject_inserts_home_page_witness :
  requests (run (createProject blankForm) (managerWorld blankForm)) = []
  /\ exists created home,
       pages (backend (run (createProject testForm) (managerWorld testForm)))
       = pages hosted ++ [home]
       /\ Page.project_id home = Project.id created
       /\ Page.slug home = "home".
Proof.
  split.
  - apply (proj1 (createProject_inserts_home_page blankForm)). reflexivity.
  - destruct (proj2 (createProject_inserts_home_page testForm))
      with (w := managerWorld testForm) (user_id := "u1")
      as [created [home H]].
    + simpl. discriminate.
    + reflexivity.
    + reflexivity.
    + exists created, home.
      destruct H as [_ [Hpages [Hid [_ [Hslug _]]]]].
      split; [exact Hpages | split; [exact Hid | exact Hslug]].
Defined.

(** C5 (the code at the failing input).  Creating project ["Test"] for
    the signed-in user [u1] when the backend serves the user request and
    the project insert and rejects the page insert: the three requests
    are sent, the project is stored and no page record is stored for it;
    the answer of the page insert is not read, so the handler goes on as
    after a served insert: nothing is logged, the success notification is
    shown, the project is listed and the editor is opened for it. *)
Theorem createProject_reports_success_without_page :
  requests (run (createProject testForm)
              (managerAt hosted [false; false; true] testForm))
  = [AuthGetUser;
     ProjectsInsert (newProjectRow (newProject testForm) "u1");
     PagesInsert [homePage "id-10" "Test"]]
  /\ map Project.id
       (Supabase.projects
          (backend (run (createProject testForm)
                      (managerAt hosted [false; false; true] testForm))))
     = ["p1"; "id-10"]
  /\ pagesOfProject "id-10"
       (backend (run (createProject testForm)
                   (managerAt hosted [false; false; true] testForm)))
     = []
  /\ Supabase.pages
       (backend (run (createProject testForm)
                   (managerAt hosted [false; false; true] testForm)))
     = [homeP1; aboutP1; contactP1]
  /\ console (run (createProject testForm)
                (managerAt hosted [false; false; true] testForm))
     = []
  /\ toasts (run (createProject testForm)
               (managerAt hosted [false; false; true] testForm))
     = [success "Project created successfully!"]
  /\ map Project.id
       (ProjectManager.projects
          (ui (run (createProject testForm)
                 (managerAt hosted [false; false; true] testForm))))
     = ["id-10"; "p1"]
  /\ App.currentView
       (app (run (createProject testForm)
               (managerAt hosted [false; false; true] testForm)))
     = App.editor
  /\ App.selectedProjectId
       (app (run (createProject testForm)
               (managerAt hosted [false; false; true] testForm)))
     = Some "id-10".
Proof. repeat split. Qed.

(** The run of [duplicateProject] for a signed-in user whose requests the
    backend serves, on a project with at least one page. *)
Lemma duplicateProject_served (project : Project.t) (w : World State)
  (user_id : string) (first : Page.t) (others : list Page.t) :
  session (backend w) = Some user_id ->
  granted 4 (faults w) = true ->
  pagesOfProject (Project.id project) (backend w) = first :: others ->
  let row := copyRow project user_id in
  let created := storeProject (gen_id (next_id (backend w))) (now (backend w)) row in
  let copies := map (copyPage (Project.id created)) (first :: others) in
  backend (run (duplicateProject project) w)
  = insertPages copies (snd (insertProject row (backend w)))
  /\ requests (run (duplicateProject project) w)
     = requests w
       ++ [AuthGetUser; ProjectsInsert row;
           PagesSelectByProject (Project.id project); PagesInsert copies].
Proof.
  intros Hsession Hgranted Hpages.
  apply granted_S in Hgranted. destruct Hgranted as [H1 Hgranted].
  apply granted_S in Hgranted. destruct Hgranted as [H2 Hgranted].
  apply granted_S in Hgranted. destruct Hgranted as [H3 Hgranted].
  apply granted_S in Hgranted. destruct Hgranted as [H4 _].
  unfold run, duplicateProject.
  destruct w as [b fs stamp reqs ts con a u].
  destruct b as [sess prj pgs an nid nw].
  cbn [backend faults session] in *. subst sess.
  assert (Hfound : forall prj' nid',
             pagesOfProject (Project.id project)
               (mkBackend (Some user_id) prj' pgs an nid' nw)
             = first :: others) by (intros; exact Hpages).
  destruct fs as [|[|] [|[|] [|[|] [|[|] fs]]]]; cbn [hd tl] in *;
    try discriminate;
    (split;
     [ cbv -[pagesOfProject Project.id]; rewrite Hfound; reflexivity
     | cbv -[pagesOfProject Project.id List.app]; rewrite Hfound;
       cbv -[Project.id List.app]; rewrite <- ?app_assoc; reflexivity ]).
Qed.

(** C6.  Duplicating a project with three pages, for a signed-in user
    whose requests the backend serves: one project record and three page
    records are added, each page record a copy of one original (title,
    slug, content, meta fields, order and parent) with
    [is_published = false]; the records that were there before are all
    still there, as they were. *)
Theorem duplicateProject_three_pages (project : Project.t) (w : World State)
  (user_id : string) (a b c : Page.t) :
  session (backend w) = Some user_id ->
  granted 4 (faults w) = true ->
  pagesOfProject (Project.id project) (backend w) = [a; b; c] ->
  exists created a' b' c',
    Supabase.projects (backend (run (duplicateProject project) w))
    = Supabase.projects (backend w) ++ [created]
    /\ pages (backend (run (duplicateProject project) w))
       = pages (backend w) ++ [a'; b'; c']
    /\ copyOf created a a' /\ copyOf created b b' /\ copyOf created c c'
    /\ pagesOfProject (Project.id project)
         (backend (run (duplicateProject project) w))
       = [a; b; c]
          ++ filter (fun p => String.eqb (Page.project_id p) (Project.id project))
               [a'; b'; c'].
Proof.
  intros Hsession Hgranted Hpages.
  destruct (duplicateProject_served project w user_id a [b; c]
              Hsession Hgranted Hpages) as [Hbackend _].
  do 4 eexists. rewrite Hbackend.
  split; [reflexivity |].
  split; [reflexivity |].
  split; [apply copyOf_storePage |].
  split; [apply copyOf_storePage |].
  split; [apply copyOf_storePage |].
  unfold pagesOfProject in *. cbn [pages insertPages insertProject snd].
  rewrite filter_app, Hpages. reflexivity.
Qed.

Lemma duplicateProject_three_pages_witness :
  exists created a' b' c',
    Supabase.projects
      (backend (run (duplicateProject siteP1) (managerWorld testForm)))
    = [siteP1; created]
    /\ pages (backend (run (duplicateProject siteP1) (managerWorld testForm)))
       = [homeP1; aboutP1; contactP1; a'; b'; c']
    /\ Page.is_published a' = false.
Proof.
  destruct (duplicateProject_three_pages siteP1 (managerWorld testForm) "u1"
              homeP1 aboutP1 contactP1)
    as [created [a' [b' [c' [Hprojects [Hpages [Ha _]]]]]]].
  - reflexivity.
  - reflexivity.
  - reflexivity.
  - exists created, a', b', c'.
    split; [exact Hprojects | split; [exact Hpages | apply Ha]].
Defined.

End ProjectManagerLaws.

(* ===================================================================== *)
(** * Properties of the page editor                                       *)
(* ===================================================================== *)

Module PageEditorLaws.

Import Supabase Ui PageEditor UiFacts Scenario.
Local Open Scope task_scope.

(** C4.  Deleting the last remaining page is rejected: when the page set
    of the render has exactly one page, [deletePage] sends no request,
    leaves the backend, the cells of the component (so the page set and
    the current page) and the navigation state as they are, and only adds
    the error notification. *)
Theorem deletePage_last_page_rejected (env : Render) (pageToDelete : Page.t)
  (w : World Live) :
  List.length (pages (cells env)) = 1%nat ->
  fst (deletePage env pageToDelete w) = Returned tt
  /\ requests (run (deletePage env pageToDelete) w) = requests w
  /\ backend (run (deletePage env pageToDelete) w) = backend w
  /\ ui (run (deletePage env pageToDelete) w) = ui w
  /\ app (run (deletePage env pageToDelete) w) = app w
  /\ console (run (deletePage env pageToDelete) w) = console w
  /\ toasts (run (deletePage env pageToDelete) w)
     = toasts w ++ [failure "Cannot delete the last page"].
Proof.
  intros Hone. unfold run, deletePage. rewrite Hone.
  repeat split.
Qed.

Lemma deletePage_last_page_rejected_witness :
  List.length (pages (cells (render onePageEditor))) = 1%nat
  /\ requests (run (click (fun env => deletePage env homeP1)) onePageEditor) = []
  /\ pages (current (ui (run (click (fun env => deletePage env homeP1)) onePageEditor)))
     = [homeP1]
  /\ Supabase.pages (backend (run (click (fun env => deletePage env homeP1)) onePageEditor))
     = [homeP1; aboutP1; contactP1].
Proof.
  split; [reflexivity |].
  destruct (deletePage_last_page_rejected (render onePageEditor) homeP1 onePageEditor)
    as [_ [Hrequests [Hbackend [Hui _]]]].
  - reflexivity.
  - unfold click, run in *.
    split; [exact Hrequests | split].
    + rewrite Hui. reflexivity.
    + rewrite Hbackend. reflexivity.
Defined.

(** What the save of a render sends: the [pageData] of that render. *)
Lemma handleSave_request (env : Render) (page : Page.t) (w : World Live) :
  currentPage (cells env) = Some page ->
  Js.truthy (projectId env) = true ->
  requests (run (handleSave env) w)
  = requests w
    ++ [PagesUpdate (changes (pageData (cells env)) (date_now w)) (Page.id page)].
Proof.
  intros Hpage Hproject. unfold run, handleSave. rewrite Hpage, Hproject.
  destruct w as [b fs stamp reqs ts con a u].
  destruct fs as [|[|] fs]; reflexivity.
Qed.

(** The save that [handlePublish] schedules belongs to the render of the
    click: when it runs, it sends the flag as it was before the click,
    whatever the cells have become. *)
Lemma publish_then_save_sends_previous_flag (page : Page.t) (w : World Live) :
  currentPage (current (ui w)) = Some page ->
  Js.truthy (App.selectedProjectId (app w)) = true ->
  timers (ui w) = [] ->
  let after := run (click handlePublish ;; fire) w in
  isPublished (pageData (current (ui (run (click handlePublish) w))))
  = negb (isPublished (pageData (current (ui w))))
  /\ requests after
     = requests w
       ++ [PagesUpdate (changes (pageData (current (ui w))) (date_now w)) (Page.id page)].
Proof.
  intros Hpage Hproject Htimers. split.
  - reflexivity.
  - unfold run, bind, click, handlePublish, fire.
    cbn -[handleSave]. rewrite Htimers. cbn -[handleSave].
    change (snd (handleSave (render w) ?x)) with (run (handleSave (render w)) x).
    rewrite (handleSave_request (render w) page) by assumption.
    reflexivity.
Qed.

(** C7 (the code at the failing input).  Publishing the unpublished page
    [aboutP1]: the cell [isPublished] becomes [true], and the save that
    follows sends [is_published = false], so the page stays unpublished
    in the backend and in the page list of the editor. *)
Theorem publish_persists_previous_flag :
  isPublished (pageData (current (ui (run (click handlePublish ;; fire) aboutEditor))))
  = true
  /\ requests (run (click handlePublish ;; fire) aboutEditor)
     = [PagesUpdate
          {| PageUpdate.title := "About";
             PageUpdate.slug := "about";
             PageUpdate.content := "# About";
             PageUpdate.meta_description := "About";
             PageUpdate.meta_keywords := "";
             PageUpdate.is_published := false;
             PageUpdate.updated_at := stamp |}
          "pg2"]
  /\ map Page.is_published
       (Supabase.pages (backend (run (click handlePublish ;; fire) aboutEditor)))
     = [true; false; false]
  /\ map Page.is_published
       (pages (current (ui (run (click handlePublish ;; fire) aboutEditor))))
     = [true; false; false]
  /\ toasts (run (click handlePublish ;; fire) aboutEditor)
     = [success "Page saved successfully!"].
Proof. repeat split. Qed.

End PageEditorLaws.

(* ===================================================================== *)
(** * Properties of binary64 multiplication                               *)
(* ===================================================================== *)

Module NumberFacts.

Local Open Scope Z_scope.

Lemma digits2_pos_bounds (p : positive) :
  2 ^ (Zpos (digits2_pos p) - 1) <= Zpos p < 2 ^ Zpos (digits2_pos p).
Proof.
  induction p as [p IH|p IH|].
  - cbn [digits2_pos]. rewrite Pos2Z.inj_succ.
    replace (Z.succ (Zpos (digits2_pos p)) - 1) with (Z.succ (Zpos (digits2_pos p) - 1)) by lia.
    rewrite !Z.pow_succ_r by lia. lia.
  - cbn [digits2_pos]. rewrite Pos2Z.inj_succ.
    replace (Z.succ (Zpos (digits2_pos p)) - 1) with (Z.succ (Zpos (digits2_pos p) - 1)) by lia.
    rewrite !Z.pow_succ_r by lia. lia.
  - simpl. lia.
Qed.

Lemma digits2_pos_unique (p : positive) (d : Z) :
  2 ^ (d - 1) <= Zpos p < 2 ^ d -> Zpos (digits2_pos p) = d.
Proof.
  intros [Hlo Hhi].
  pose proof (digits2_pos_bounds p) as [Hl Hh].
  assert (0 < d).
  { destruct (Z_lt_le_dec 0 d) as [?|Hd]; [assumption|].
    exfalso. destruct (Z.eq_dec d 0) as [->|Hne].
    - simpl in Hhi. lia.
    - rewrite Z.pow_neg_r in Hhi by lia. lia. }
  destruct (Z.lt_trichotomy (Zpos (digits2_pos p)) d) as [Hlt|[Heq|Hgt]].
  - exfalso.
    assert (2 ^ Zpos (digits2_pos p) <= 2 ^ (d - 1)) by (apply Z.pow_le_mono_r; lia).
    lia.
  - exact Heq.
  - exfalso.
    assert (2 ^ d <= 2 ^ (Zpos (digits2_pos p) - 1)) by (apply Z.pow_le_mono_r; lia).
    lia.
Qed.

Lemma shr_m_shr_1 (r : shr_record) :
  0 <= shr_m r -> shr_m (shr_1 r) = shr_m r / 2.
Proof.
  destruct r as [m b s]. cbn [shr_m]. intros Hm.
  destruct m as [|[p|p|]|p]; cbn [shr_1 shr_m].
  - reflexivity.
  - rewrite Pos2Z.inj_xI. apply Z.div_unique with (r := 1); lia.
  - rewrite Pos2Z.inj_xO. apply Z.div_unique with (r := 0); lia.
  - reflexivity.
  - lia.
Qed.

Lemma pow2_xI (p : positive) : 2 ^ Zpos p~1 = 2 * 2 ^ Zpos p * 2 ^ Zpos p.
Proof.
  replace (Zpos p~1) with (1 + Zpos p + Zpos p) by lia.
  rewrite !Z.pow_add_r by lia. rewrite Z.pow_1_r. reflexivity.
Qed.

Lemma pow2_xO (p : positive) : 2 ^ Zpos p~0 = 2 ^ Zpos p * 2 ^ Zpos p.
Proof.
  replace (Zpos p~0) with (Zpos p + Zpos p) by lia.
  rewrite Z.pow_add_r by lia. reflexivity.
Qed.

Lemma shr_m_iter_pos (p : positive) (r : shr_record) :
  0 <= shr_m r ->
  shr_m (SpecFloat.iter_pos shr_1 p r) = shr_m r / 2 ^ Zpos p.
Proof.
  revert r. induction p as [p IH|p IH|]; intros r Hr; cbn [SpecFloat.iter_pos].
  - assert (Hpow : 0 < 2 ^ Zpos p) by (apply Z.pow_pos_nonneg; lia).
    assert (H1 : 0 <= shr_m (shr_1 r)).
    { rewrite shr_m_shr_1 by exact Hr. apply Z.div_pos; lia. }
    assert (H2 : 0 <= shr_m (SpecFloat.iter_pos shr_1 p (shr_1 r))).
    { rewrite IH by exact H1. apply Z.div_pos; assumption. }
    rewrite IH by exact H2. rewrite IH by exact H1. rewrite shr_m_shr_1 by exact Hr.
    rewrite pow2_xI. rewrite !Z.div_div by lia. f_equal. ring.
  - assert (Hpow : 0 < 2 ^ Zpos p) by (apply Z.pow_pos_nonneg; lia).
    assert (H2 : 0 <= shr_m (SpecFloat.iter_pos shr_1 p r)).
    { rewrite IH by exact Hr. apply Z.div_pos; assumption. }
    rewrite IH by exact H2. rewrite IH by exact Hr.
    rewrite pow2_xO. rewrite Z.div_div by lia. f_equal.
  - rewrite shr_m_shr_1 by exact Hr. reflexivity.
Qed.

Lemma iter_xO_pow2 (m d : positive) :
  Zpos (Pos.iter xO m d) = Zpos m * 2 ^ Zpos d.
Proof.
  rewrite (Pos.iter_swap_gen _ _ Zpos xO (Z.mul 2)) by (intros; reflexivity).
  change (Pos.iter (Z.mul 2) (Zpos m) d) with (Z.shiftl (Zpos m) (Zpos d)).
  apply Z.shiftl_mul_pow2. lia.
Qed.

Lemma round_nearest_even_range (q : Z) (l : location) :
  q <= round_nearest_even q l <= q + 1.
Proof.
  destruct l as [|[| |]]; cbn [round_nearest_even]; try lia.
  destruct (Z.even q); lia.
Qed.

Lemma binary_round_aux_canonical (m : positive) (e : Z) :
  Zpos (digits2_pos m) = 53 -> -1074 <= e <= 971 ->
  binary_round_aux 53 1024 false (Zpos m) e loc_Exact = S754_finite false m e.
Proof.
  intros Hdigits He.
  assert (Hshift : fexp 53 1024 (Zpos (digits2_pos m) + e) - e = 0).
  { rewrite Hdigits. unfold fexp, emin. lia. }
  unfold binary_round_aux, shr_fexp.
  cbn [Zdigits2 shr_record_of_loc]. rewrite Hshift.
  cbn [shr shr_m loc_of_shr_record round_nearest_even Zdigits2 shr_record_of_loc].
  rewrite Hshift. cbn [shr shr_m].
  replace (e <=? 1024 - 53) with true by (symmetry; apply Z.leb_le; lia).
  reflexivity.
Qed.

Lemma quotient_digits (M : positive) (k : positive) :
  Zpos (digits2_pos M) = 53 + Zpos k ->
  2 ^ 52 <= Zpos M / 2 ^ Zpos k < 2 ^ 53.
Proof.
  intros Hdigits.
  pose proof (digits2_pos_bounds M) as [Hlo Hhi]. rewrite Hdigits in Hlo, Hhi.
  assert (Hpow : 0 < 2 ^ Zpos k) by (apply Z.pow_pos_nonneg; lia).
  replace (53 + Zpos k - 1) with (52 + Zpos k) in Hlo by lia.
  rewrite Z.pow_add_r in Hlo, Hhi by lia.
  split.
  - apply Z.div_le_lower_bound; lia.
  - apply Z.div_lt_upper_bound; lia.
Qed.

Lemma shr_fexp_shift (m e : Z) (k : positive) :
  fexp 53 1024 (Zdigits2 m + e) - e = Zpos k ->
  shr_fexp 53 1024 m e loc_Exact
  = (SpecFloat.iter_pos shr_1 k {| shr_m := m; shr_r := false; shr_s := false |}, e + Zpos k).
Proof. intros H. unfold shr_fexp. rewrite H. reflexivity. Qed.

Lemma shr_fexp_keep (m e : Z) :
  fexp 53 1024 (Zdigits2 m + e) - e = 0 ->
  shr_fexp 53 1024 m e loc_Exact
  = ({| shr_m := m; shr_r := false; shr_s := false |}, e).
Proof. intros H. unfold shr_fexp. rewrite H. reflexivity. Qed.

Lemma binary_round_aux_rounded (M : positive) (E : Z) (k : positive) :
  Zpos (digits2_pos M) = 53 + Zpos k ->
  -1074 <= E + Zpos k -> E + Zpos k + 1 <= 971 ->
  exists m' e',
    binary_round_aux 53 1024 false (Zpos M) E loc_Exact = S754_finite false m' e'
    /\ ((e' = E + Zpos k
         /\ Zpos M / 2 ^ Zpos k <= Zpos m' <= Zpos M / 2 ^ Zpos k + 1)
        \/ (e' = E + Zpos k + 1
            /\ 2 * Zpos m' = Zpos M / 2 ^ Zpos k + 1)).
Proof.
  intros Hdigits Hlow Hhigh.
  pose proof (quotient_digits M k Hdigits) as Hq.
  change (2 ^ 52) with 4503599627370496 in Hq.
  change (2 ^ 53) with 9007199254740992 in Hq.
  unfold binary_round_aux.
  rewrite (shr_fexp_shift (Zpos M) E k)
    by (cbn [Zdigits2]; rewrite Hdigits; unfold fexp, emin; lia).
  set (mrs := SpecFloat.iter_pos shr_1 k {| shr_m := Zpos M; shr_r := false; shr_s := false |}).
  assert (Hm : shr_m mrs = Zpos M / 2 ^ Zpos k).
  { unfold mrs. rewrite shr_m_iter_pos; cbn [shr_m]; [reflexivity | lia]. }
  pose proof (round_nearest_even_range (shr_m mrs) (loc_of_shr_record mrs)) as Hround.
  rewrite <- Hm in Hq |- *.
  destruct (round_nearest_even (shr_m mrs) (loc_of_shr_record mrs)) as [|q'|q'] eqn:Hq';
    [lia | | lia].
  destruct (Z_lt_le_dec (Zpos q') 9007199254740992) as [Hsmall|Hbig].
  - assert (Hd : Zpos (digits2_pos q') = 53).
    { apply digits2_pos_unique.
      change (2 ^ (53 - 1)) with 4503599627370496.
      change (2 ^ 53) with 9007199254740992. lia. }
    rewrite shr_fexp_keep
      by (cbn [Zdigits2]; rewrite Hd; unfold fexp, emin; lia).
    cbn [shr_m].
    replace (E + Zpos k <=? 1024 - 53) with true by (symmetry; apply Z.leb_le; lia).
    exists q', (E + Zpos k). split; [reflexivity | left]. split; [reflexivity | lia].
  - assert (Hq'val : q' = 9007199254740992%positive) by lia.
    subst q'.
    rewrite (shr_fexp_shift _ _ 1)
      by (change (Zdigits2 (Zpos 9007199254740992)) with 54; unfold fexp, emin; lia).
    cbn [SpecFloat.iter_pos shr_1 shr_m].
    replace (E + Zpos k + 1 <=? 1024 - 53) with true by (symmetry; apply Z.leb_le; lia).
    exists 4503599627370496%positive, (E + Zpos k + 1).
    split; [reflexivity | right]. split; [reflexivity |].
    lia.
Qed.

Lemma digits2_pos_le_32 (p : positive) :
  Zpos p < 2 ^ 32 -> 1 <= Zpos (digits2_pos p) <= 32.
Proof.
  intros Hp. pose proof (digits2_pos_bounds p) as [Hlo _].
  split; [lia |].
  destruct (Z_lt_le_dec 32 (Zpos (digits2_pos p))) as [Hgt|Hle]; [exfalso | exact Hle].
  assert (2 ^ 32 <= 2 ^ (Zpos (digits2_pos p) - 1)) by (apply Z.pow_le_mono_r; lia).
  lia.
Qed.

(** The Number of a positive integer below 2^32: the integer itself,
    with a mantissa of 53 bits. *)
Lemma ofInt_pos (p : positive) :
  Zpos p < 2 ^ 32 ->
  exists m e,
    Js.ofInt (Zpos p) = S754_finite false m e
    /\ Zpos (digits2_pos m) = 53
    /\ -52 <= e <= -21
    /\ Zpos m = Zpos p * 2 ^ (- e).
Proof.
  intros Hp.
  pose proof (digits2_pos_le_32 p Hp) as Hd.
  pose proof (digits2_pos_bounds p) as [Hlo Hhi].
  set (d := Zpos (digits2_pos p)) in *.
  destruct (53 - d) as [|delta|delta] eqn:Hdelta; try lia.
  assert (Hexp : fexp 53 1024 (d + 0) = d - 53) by (unfold fexp, emin; lia).
  assert (Hm : Zpos (Pos.iter xO p delta) = Zpos p * 2 ^ (53 - d))
    by (rewrite Hdelta; apply iter_xO_pow2).
  assert (Hsplit : 2 ^ 52 = 2 ^ (d - 1) * 2 ^ (53 - d))
    by (rewrite <- Z.pow_add_r by lia; f_equal; lia).
  assert (Hsplit' : 2 ^ 53 = 2 ^ d * 2 ^ (53 - d))
    by (rewrite <- Z.pow_add_r by lia; f_equal; lia).
  assert (Hpow : 0 < 2 ^ (53 - d)) by (apply Z.pow_pos_nonneg; lia).
  assert (Hdigits : Zpos (digits2_pos (Pos.iter xO p delta)) = 53).
  { apply digits2_pos_unique. change (53 - 1) with 52.
    rewrite Hm, Hsplit, Hsplit'. split.
    - apply Z.mul_le_mono_nonneg_r; lia.
    - apply Z.mul_lt_mono_pos_r; lia. }
  exists (Pos.iter xO p delta), (d - 53).
  split; [| split; [exact Hdigits | split; [lia |]]].
  - unfold Js.ofInt, Js.prec, Js.emax, binary_normalize, binary_round, shl_align.
    fold d. rewrite Hexp.
    replace (d - 53 - 0) with (Zneg delta) by lia.
    apply binary_round_aux_canonical; [exact Hdigits | lia].
  - rewrite Hm. f_equal. f_equal. lia.
Qed.

Lemma div_between (a d q : Z) :
  0 < d -> d * q <= a < d * q + d -> a / d = q.
Proof.
  intros Hd H. symmetry. apply Z.div_unique with (r := a - d * q); lia.
Qed.

Lemma product_digits (m : positive) :
  Zpos (digits2_pos m) = 53 ->
  Zpos (digits2_pos (m * 7205759403792794)) = 53 + 52
  \/ Zpos (digits2_pos (m * 7205759403792794)) = 53 + 53.
Proof.
  intros Hm. pose proof (digits2_pos_bounds m) as Hb. rewrite Hm in Hb.
  change (2 ^ (53 - 1)) with 4503599627370496 in Hb.
  change (2 ^ 53) with 9007199254740992 in Hb.
  destruct (Z_lt_le_dec (Zpos (m * 7205759403792794)) (2 ^ 105)) as [Hlt|Hge].
  - left. apply digits2_pos_unique.
    change (2 ^ (53 + 52 - 1)) with 20282409603651670423947251286016.
    change (2 ^ (53 + 52)) with 40564819207303340847894502572032.
    change (2 ^ 105) with 40564819207303340847894502572032 in Hlt.
    rewrite Pos2Z.inj_mul in *. lia.
  - right. apply digits2_pos_unique.
    change (2 ^ (53 + 53 - 1)) with 40564819207303340847894502572032.
    change (2 ^ (53 + 53)) with 81129638414606681695789005144064.
    change (2 ^ 105) with 40564819207303340847894502572032 in Hge.
    rewrite Pos2Z.inj_mul in *. lia.
Qed.

(** [Math.floor(n * 0.4)] in binary64 is the integer part of 4n/10, for
    every array length [n]. *)
Lemma floor_mul_0_4 (n : Z) :
  0 <= n < 2 ^ 32 ->
  Js.Math_floor (Js.mul (Js.ofInt n) Js.lit_0_4) = n * 4 / 10.
Proof.
  intros [Hn0 Hn].
  destruct n as [|p|p]; [reflexivity | | lia].
  destruct (ofInt_pos p Hn) as [m [e [Hof [Hdigits [He Hm]]]]].
  rewrite Hof. unfold Js.mul, Js.lit_0_4, Js.prec, Js.emax. cbn [SFmul xorb].
  set (P := 2 ^ (- e)) in *.
  set (Q := Zpos p * 4 / 10).
  assert (HQ : 10 * Q <= Zpos p * 4 < 10 * Q + 10).
  { unfold Q. split.
    - apply Z.mul_div_le; lia.
    - pose proof (Z.mul_succ_div_gt (Zpos p * 4) 10). lia. }
  assert (HP : 2 ^ 21 <= P) by (apply Z.pow_le_mono_r; lia).
  change (2 ^ 21) with 2097152 in HP.
  change (2 ^ 32) with 4294967296 in Hn.
  set (Y := Zpos p * 7205759403792794).
  assert (HM : Zpos (m * 7205759403792794) = P * Y)
    by (rewrite Pos2Z.inj_mul, Hm; unfold Y; ring).
  set (a := P * Y) in *. set (b := P * Q).
  (* the distance of the exact product to the two integers around it *)
  assert (HW : 0 <= a - 18014398509481984 * b).
  { replace (a - 18014398509481984 * b) with (P * (Y - 18014398509481984 * Q))
      by (unfold a, b; ring).
    apply Z.mul_nonneg_nonneg; unfold Y; lia. }
  assert (HX : 2097152 * 2251799813685248
               <= 18014398509481984 * b + 18014398509481984 * P - a).
  { replace (18014398509481984 * b + 18014398509481984 * P - a)
      with (P * (18014398509481984 * (Q + 1) - Y)) by (unfold a, b; ring).
    apply Z.mul_le_mono_nonneg; unfold Y; lia. }
  assert (Hpow2 : forall j, 0 <= j -> 2 ^ (- e + j) = P * 2 ^ j)
    by (intros j Hj; unfold P; apply Z.pow_add_r; lia).
  destruct (product_digits m Hdigits) as [Hk|Hk].
  - destruct (binary_round_aux_rounded (m * 7205759403792794) (e + -54) 52 Hk)
      as [m' [e' [Hres [[He' Hm']|[He' Hm']]]]]; try lia;
      rewrite Hres; cbn [Js.Math_floor cond_Zopp];
      rewrite Z.shiftl_div_pow2 by lia;
      pose proof (Z.mul_div_le (Zpos (m * 7205759403792794)) (2 ^ 52) eq_refl) as Hq1;
      pose proof (Z.mul_succ_div_gt (Zpos (m * 7205759403792794)) (2 ^ 52) eq_refl) as Hq2;
      rewrite HM in *; change (2 ^ 52) with 4503599627370496 in *;
      set (q := a / 4503599627370496) in *.
    + replace (- e') with (- e + 2) by lia. rewrite Hpow2 by lia.
      change (2 ^ 2) with 4.
      apply div_between; [lia |]. rewrite <- Z.mul_assoc. fold b. lia.
    + replace (- e') with (- e + 1) by lia. rewrite Hpow2 by lia.
      change (2 ^ 1) with 2.
      apply div_between; [lia |]. rewrite <- Z.mul_assoc. fold b. lia.
  - destruct (binary_round_aux_rounded (m * 7205759403792794) (e + -54) 53 Hk)
      as [m' [e' [Hres [[He' Hm']|[He' Hm']]]]]; try lia;
      rewrite Hres; cbn [Js.Math_floor cond_Zopp];
      rewrite Z.shiftl_div_pow2 by lia;
      pose proof (Z.mul_div_le (Zpos (m * 7205759403792794)) (2 ^ 53) eq_refl) as Hq1;
      pose proof (Z.mul_succ_div_gt (Zpos (m * 7205759403792794)) (2 ^ 53) eq_refl) as Hq2;
      rewrite HM in *; change (2 ^ 53) with 9007199254740992 in *;
      set (q := a / 9007199254740992) in *.
    + replace (- e') with (- e + 1) by lia. rewrite Hpow2 by lia.
      change (2 ^ 1) with 2.
      apply div_between; [lia |]. rewrite <- Z.mul_assoc. fold b. lia.
    + replace (- e') with (- e + 0) by lia. rewrite Hpow2 by lia.
      change (2 ^ 0) with 1. rewrite Z.mul_1_r.
      apply div_between; [lia |]. fold b. lia.
Qed.

End NumberFacts.

(* ===================================================================== *)
(** * Properties of the dashboard                                         *)
(* ===================================================================== *)

Module DashboardLaws.

Import Supabase Ui Dashboard UiFacts Scenario.

Lemma or_zero_Some (n : Z) : Js.or_zero (Some n) = n.
Proof.
  unfold Js.or_zero. destruct (Z.eqb_spec n 0) as [->|_]; reflexivity.
Qed.

Lemma insertByUpdatedAt_length (p : Project.t) (sorted : list Project.t) :
  List.length (insertByUpdatedAt p sorted) = S (List.length sorted).
Proof.
  induction sorted as [|q rest IH]; simpl.
  - reflexivity.
  - destruct (String.leb (Project.updated_at q) (Project.updated_at p)); simpl.
    + reflexivity.
    + rewrite IH. reflexivity.
Qed.

Lemma byUpdatedAtDesc_length (rows : list Project.t) :
  List.length (byUpdatedAtDesc rows) = List.length rows.
Proof.
  induction rows as [|p rows IH]; simpl.
  - reflexivity.
  - rewrite insertByUpdatedAt_length, IH. reflexivity.
Qed.

Lemma insertByUpdatedAt_perm (p : Project.t) (sorted : list Project.t) :
  Permutation (insertByUpdatedAt p sorted) (p :: sorted).
Proof.
  induction sorted as [|q rest IH]; simpl.
  - apply Permutation_refl.
  - destruct (String.leb (Project.updated_at q) (Project.updated_at p)).
    + apply Permutation_refl.
    + apply perm_trans with (q :: p :: rest).
      * apply perm_skip, IH.
      * apply perm_swap.
Qed.

(** The ordered rows are the rows of the table. *)
Lemma byUpdatedAtDesc_perm (rows : list Project.t) :
  Permutation (byUpdatedAtDesc rows) rows.
Proof.
  induction rows as [|p rows IH]; simpl.
  - apply perm_nil.
  - apply perm_trans with (p :: byUpdatedAtDesc rows).
    + apply insertByUpdatedAt_perm.
    + apply perm_skip, IH.
Qed.

Lemma insertByUpdatedAt_hd (p r : Project.t) (sorted : list Project.t) :
  notOlder r p -> HdRel notOlder r sorted ->
  HdRel notOlder r (insertByUpdatedAt p sorted).
Proof.
  intros Hrp Hhd. destruct sorted as [|q rest]; simpl.
  - constructor. exact Hrp.
  - destruct (String.leb (Project.updated_at q) (Project.updated_at p)).
    + constructor. exact Hrp.
    + constructor. inversion Hhd; assumption.
Qed.

Lemma insertByUpdatedAt_sorted (p : Project.t) (sorted : list Project.t) :
  Sorted notOlder sorted -> Sorted notOlder (insertByUpdatedAt p sorted).
Proof.
  induction sorted as [|q rest IH]; intros Hsorted; simpl.
  - constructor; constructor.
  - destruct (String.leb (Project.updated_at q) (Project.updated_at p)) eqn:Hqp.
    + constructor; [exact Hsorted | constructor; exact Hqp].
    + inversion Hsorted as [|? ? Hrest Hhd]; subst.
      constructor.
      * apply IH, Hrest.
      * apply insertByUpdatedAt_hd; [| exact Hhd].
        unfold notOlder.
        destruct (String.leb_total (Project.updated_at p) (Project.updated_at q))
          as [H|H]; [exact H | rewrite H in Hqp; discriminate Hqp].
Qed.

(** The ordered rows are by decreasing [updated_at]. *)
Lemma byUpdatedAtDesc_sorted (rows : list Project.t) :
  Sorted notOlder (byUpdatedAtDesc rows).
Proof.
  induction rows as [|p rows IH]; simpl.
  - constructor.
  - apply insertByUpdatedAt_sorted, IH.
Qed.

(** The query fetches at most five projects. *)
Lemma recentProjects_length (n : nat) (b : Backend) :
  List.length (recentProjects n b) = Nat.min n (List.length (Supabase.projects b)).
Proof.
  unfold recentProjects. rewrite length_firstn, byUpdatedAtDesc_length. reflexivity.
Qed.

(** The floor of [n * 0.4] over the rationals. *)
Lemma Qfloor_four_tenths (n : Z) : Qfloor (inject_Z n * (4 # 10)) = (n * 4 / 10)%Z.
Proof. reflexivity. Qed.

(** The cells after a load that the backend serves. *)
Lemma loadDashboardData_served (w : World State) :
  granted 2 (faults w) = true ->
  ui (run loadDashboardData w)
  = {| projects := recentProjects 5 (backend w);
       stats := calculateStats (Some (recentProjects 5 (backend w)))
                  (Some (analytics (backend w)));
       loading := false |}.
Proof.
  intros Hgranted.
  apply granted_S in Hgranted. destruct Hgranted as [H1 Hgranted].
  apply granted_S in Hgranted. destruct Hgranted as [H2 _].
  destruct w as [b fs stamp reqs ts con a u].
  cbn [faults] in H1, H2.
  destruct fs as [|[|] [|[|] fs]]; cbn [hd tl] in *; try discriminate; reflexivity.
Qed.

(** C8.  Dashboard statistics: after a load that the backend serves,
    [totalProjects] is the number of fetched projects (the five most
    recently updated ones, or all of them when there are fewer),
    [publishedSites] the number of those with [is_published = true],
    [totalViews] the number of analytics events, and [activeUsers] the
    floor of [totalViews * 0.4]. *)
Theorem loadDashboardData_stats (w : World State) :
  granted 2 (faults w) = true ->
  (Z.of_nat (List.length (analytics (backend w))) < 2 ^ 32)%Z ->
  projects (ui (run loadDashboardData w)) = recentProjects 5 (backend w)
  /\ (List.length (recentProjects 5 (backend w)) <= 5)%nat
  /\ totalProjects (stats (ui (run loadDashboardData w)))
     = Z.of_nat (List.length (recentProjects 5 (backend w)))
  /\ publishedSites (stats (ui (run loadDashboardData w)))
     = Z.of_nat (List.length
                   (filter Project.is_published (recentProjects 5 (backend w))))
  /\ totalViews (stats (ui (run loadDashboardData w)))
     = Z.of_nat (List.length (analytics (backend w)))
  /\ activeUsers (stats (ui (run loadDashboardData w)))
     = Qfloor (inject_Z (totalViews (stats (ui (run loadDashboardData w))))
               * (4 # 10)).
Proof.
  intros Hgranted Hbound.
  rewrite (loadDashboardData_served w Hgranted).
  cbn [projects stats totalProjects publishedSites totalViews activeUsers
       calculateStats Js.length_opt option_map].
  rewrite !or_zero_Some.
  split; [reflexivity |].
  split; [rewrite recentProjects_length; apply Nat.le_min_l |].
  split; [reflexivity |].
  split; [reflexivity |].
  split; [reflexivity |].
  rewrite Qfloor_four_tenths.
  apply NumberFacts.floor_mul_0_4. lia.
Qed.

Lemma loadDashboardData_stats_witness :
  stats (ui (run loadDashboardData dashboardWorld))
  = {| totalProjects := 1; publishedSites := 1; totalViews := 7; activeUsers := 2 |}
  /\ activeUsers (stats (ui (run loadDashboardData dashboardWorld)))
     = Qfloor (inject_Z 7 * (4 # 10)).
Proof.
  split; [reflexivity |].
  destruct (loadDashboardData_stats dashboardWorld) as [_ [_ [_ [_ [_ H]]]]].
  - reflexivity.
  - reflexivity.
  - exact H.
Defined.

End DashboardLaws.

(* ===================================================================== *)
(** * Properties of strings                                               *)
(* ===================================================================== *)

Module StringFacts.

Local Open Scope nat_scope.

Lemma length_append (a b : string) :
  String.length (String.append a b) = String.length a + String.length b.
Proof.
  induction a as [|c a IH]; simpl.
  - reflexivity.
  - rewrite IH. reflexivity.
Qed.

Lemma append_assoc (a b c : string) :
  String.append (String.append a b) c = String.append a (String.append b c).
Proof.
  induction a as [|x a IH]; simpl.
  - reflexivity.
  - rewrite IH. reflexivity.
Qed.

Lemma append_empty_r (a : string) : String.append a "" = a.
Proof.
  induction a as [|x a IH]; simpl.
  - reflexivity.
  - rewrite IH. reflexivity.
Qed.

Lemma take_length (n : nat) (s : string) :
  String.length (Js.take n s) = Nat.min n (String.length s).
Proof.
  revert s. induction n as [|n IH]; intros [|c s]; simpl; try reflexivity.
  rewrite IH. reflexivity.
Qed.

Lemma drop_length (n : nat) (s : string) :
  String.length (Js.drop n s) = String.length s - n.
Proof.
  revert s. induction n as [|n IH]; intros [|c s]; simpl; try reflexivity.
  apply IH.
Qed.

Lemma take_drop (n : nat) (s : string) :
  String.append (Js.take n s) (Js.drop n s) = s.
Proof.
  revert s. induction n as [|n IH]; intros [|c s]; simpl; try reflexivity.
  rewrite IH. reflexivity.
Qed.

Lemma take_all (n : nat) (s : string) :
  String.length s <= n -> Js.take n s = s.
Proof.
  revert s. induction n as [|n IH]; intros [|c s] H; simpl in *;
    try reflexivity; try lia.
  rewrite IH by lia. reflexivity.
Qed.

Lemma drop_drop (n m : nat) (s : string) :
  Js.drop n (Js.drop m s) = Js.drop (m + n) s.
Proof.
  revert s. induction m as [|m IH]; intros s; simpl.
  - reflexivity.
  - destruct s as [|c s].
    + destruct n; reflexivity.
    + apply IH.
Qed.

Lemma take_take_drop (n m : nat) (s : string) :
  String.append (Js.take n s) (Js.take m (Js.drop n s)) = Js.take (n + m) s.
Proof.
  revert s. induction n as [|n IH]; intros s; simpl.
  - reflexivity.
  - destruct s as [|c s]; simpl.
    + destruct m; reflexivity.
    + rewrite IH. reflexivity.
Qed.

Lemma take_append_exact (a b : string) :
  Js.take (String.length a) (String.append a b) = a.
Proof.
  induction a as [|c a IH]; simpl.
  - destruct b; reflexivity.
  - rewrite IH. reflexivity.
Qed.

Lemma drop_append_exact (a b : string) :
  Js.drop (String.length a) (String.append a b) = b.
Proof.
  induction a as [|c a IH]; simpl.
  - destruct b; reflexivity.
  - exact IH.
Qed.

Lemma take_append_le (n : nat) (a b : string) :
  n <= String.length a -> Js.take n (String.append a b) = Js.take n a.
Proof.
  revert a. induction n as [|n IH]; intros [|c a] H; simpl in *;
    try reflexivity; try lia.
  rewrite IH by lia. reflexivity.
Qed.

Lemma drop_append_ge (n : nat) (a b : string) :
  Js.drop (String.length a + n) (String.append a b) = Js.drop n b.
Proof.
  induction a as [|c a IH]; simpl.
  - reflexivity.
  - exact IH.
Qed.

(** [s.substring(a, b)] within bounds. *)
Lemma substring_within (s : string) (a b : nat) :
  a <= b -> b <= String.length s ->
  Js.substring s a b = Js.take (b - a) (Js.drop a s).
Proof.
  intros Hab Hb. unfold Js.substring.
  rewrite !Nat.min_l by lia. rewrite Nat.max_r by lia. reflexivity.
Qed.

Lemma substring_length (s : string) (a b : nat) :
  a <= b -> b <= String.length s ->
  String.length (Js.substring s a b) = b - a.
Proof.
  intros Hab Hb. rewrite substring_within by assumption.
  rewrite take_length, drop_length. lia.
Qed.

End StringFacts.

(* ===================================================================== *)
(** * Properties of the markdown editor                                   *)
(* ===================================================================== *)

Module MarkdownEditorLaws.

Import MarkdownEditor StringFacts.
Local Open Scope nat_scope.

(** The three parts [insertMarkdown] cuts the content into. *)
Lemma content_parts (content : string) (a b : nat) :
  a <= b -> b <= String.length content ->
  Js.substring content 0 a = Js.take a content
  /\ Js.substring content b (String.length content) = Js.drop b content
  /\ String.append (Js.take a content)
       (String.append (Js.substring content a b) (Js.drop b content))
     = content.
Proof.
  intros Hab Hb. split; [| split].
  - rewrite substring_within by lia. rewrite Nat.sub_0_r. reflexivity.
  - rewrite substring_within by lia.
    apply take_all. rewrite drop_length. lia.
  - rewrite substring_within by lia.
    rewrite <- append_assoc, take_take_drop.
    replace (a + (b - a)) with b by lia.
    apply take_drop.
Qed.

Lemma take_length_exact (n : nat) (s : string) :
  n <= String.length s -> String.length (Js.take n s) = n.
Proof. intros H. rewrite take_length. lia. Qed.

(** X1.  [insertMarkdown] only adds the two markers: the new content is
    longer than the old one by the lengths of [before] and [after]. *)
Theorem insertMarkdown_length (content before after : string) (sel : Selection)
  (edit : Edit) :
  selectionStart sel <= selectionEnd sel ->
  selectionEnd sel <= String.length content ->
  insertMarkdown content (Some sel) before after = Some edit ->
  countChars (newContent edit)
  = countChars content + String.length before + String.length after.
Proof.
  intros Hab Hb Hedit. injection Hedit as <-. cbn [newContent]. unfold countChars.
  destruct (content_parts content _ _ Hab Hb) as [Hprefix [Hsuffix Hwhole]].
  rewrite Hprefix, Hsuffix. rewrite !length_append.
  rewrite <- Hwhole at 4. rewrite !length_append. lia.
Qed.

Lemma insertMarkdown_length_witness :
  exists edit,
    insertMarkdown "make this bold" (Some (mkSelection 5 9)) "**" "**" = Some edit
    /\ newContent edit = "make **this** bold"
    /\ countChars (newContent edit) = 14 + 2 + 2.
Proof.
  eexists. split; [reflexivity | split; [reflexivity |]].
  apply (insertMarkdown_length "make this bold" "**" "**" (mkSelection 5 9)).
  - simpl. lia.
  - simpl. lia.
  - reflexivity.
Defined.

(** The middle of three appended strings, by its indices. *)
Lemma substring_middle (a m z : string) :
  Js.substring (String.append a (String.append m z))
    (String.length a) (String.length a + String.length m)
  = m.
Proof.
  rewrite substring_within.
  - rewrite drop_append_exact.
    replace (String.length a + String.length m - String.length a)
      with (String.length m) by lia.
    apply take_append_exact.
  - lia.
  - rewrite !length_append. lia.
Qed.

(** The end of two appended strings, by its indices. *)
Lemma substring_tail (a z : string) :
  Js.substring (String.append a z)
    (String.length a) (String.length (String.append a z))
  = z.
Proof.
  rewrite substring_within.
  - rewrite drop_append_exact. apply take_all.
    rewrite length_append. lia.
  - rewrite length_append. lia.
  - lia.
Qed.

(** What [insertMarkdown] returns, for a selection within the content. *)
Lemma insertMarkdown_parts (content before after : string) (sel : Selection)
  (edit : Edit) :
  selectionStart sel <= selectionEnd sel ->
  selectionEnd sel <= String.length content ->
  insertMarkdown content (Some sel) before after = Some edit ->
  exists prefix selected suffix,
    content = String.append prefix (String.append selected suffix)
    /\ String.length prefix = selectionStart sel
    /\ selected = Js.substring content (selectionStart sel) (selectionEnd sel)
    /\ newContent edit
       = String.append prefix
           (String.append before
              (String.append selected (String.append after suffix)))
    /\ selectionStart (restored edit) = String.length prefix + String.length before
    /\ selectionEnd (restored edit)
       = String.length prefix + String.length before + String.length selected.
Proof.
  intros Hab Hb Hedit. injection Hedit as <-.
  destruct (content_parts content _ _ Hab Hb) as [Hprefix [Hsuffix Hwhole]].
  assert (Hstart : String.length (Js.take (selectionStart sel) content)
                   = selectionStart sel) by (apply take_length_exact; lia).
  exists (Js.take (selectionStart sel) content),
         (Js.substring content (selectionStart sel) (selectionEnd sel)),
         (Js.drop (selectionEnd sel) content).
  cbn [newContent restored selectionStart selectionEnd].
  rewrite Hprefix, Hsuffix, Hstart.
  repeat split; try reflexivity. symmetry. exact Hwhole.
Qed.

(** X2.  The range [insertMarkdown] restores selects, in the new content,
    the text that was selected before. *)
Theorem insertMarkdown_keeps_selection (content before after : string)
  (sel : Selection) (edit : Edit) :
  selectionStart sel <= selectionEnd sel ->
  selectionEnd sel <= String.length content ->
  insertMarkdown content (Some sel) before after = Some edit ->
  Js.substring (newContent edit)
    (selectionStart (restored edit)) (selectionEnd (restored edit))
  = Js.substring content (selectionStart sel) (selectionEnd sel).
Proof.
  intros Hab Hb Hedit.
  destruct (insertMarkdown_parts content before after sel edit Hab Hb Hedit)
    as [prefix [selected [suffix [_ [_ [Hsel [Hnew [Hrs Hre]]]]]]]].
  rewrite Hnew, Hrs, Hre, <- Hsel.
  rewrite <- (append_assoc prefix before), <- length_append.
  apply substring_middle.
Qed.

Lemma insertMarkdown_keeps_selection_witness :
  exists edit,
    insertMarkdown "see the docs" (Some (mkSelection 8 12)) "[" "](url)" = Some edit
    /\ newContent edit = "see the [docs](url)"
    /\ Js.substring (newContent edit)
         (selectionStart (restored edit)) (selectionEnd (restored edit))
       = "docs".
Proof.
  eexists. split; [reflexivity | split; [reflexivity |]].
  apply (insertMarkdown_keeps_selection "see the docs" "[" "](url)" (mkSelection 8 12)).
  - simpl. lia.
  - simpl. lia.
  - reflexivity.
Defined.

(** X3.  Nothing of the content is lost: the new content without the two
    markers, that is what is before the old start, the restored range,
    and what is after the marker behind it, is the old content. *)
Theorem insertMarkdown_without_markers (content before after : string)
  (sel : Selection) (edit : Edit) :
  selectionStart sel <= selectionEnd sel ->
  selectionEnd sel <= String.length content ->
  insertMarkdown content (Some sel) before after = Some edit ->
  String.append (Js.substring (newContent edit) 0 (selectionStart sel))
    (String.append
       (Js.substring (newContent edit)
          (selectionStart (restored edit)) (selectionEnd (restored edit)))
       (Js.substring (newContent edit)
          (selectionEnd (restored edit) + String.length after)
          (String.length (newContent edit))))
  = content.
Proof.
  intros Hab Hb Hedit.
  destruct (insertMarkdown_parts content before after sel edit Hab Hb Hedit)
    as [prefix [selected [suffix [Hcontent [Hstart [_ [Hnew [Hrs Hre]]]]]]]].
  rewrite Hrs, Hre, <- Hstart, Hcontent.
  f_equal; [| f_equal].
  - rewrite Hnew.
    exact (substring_middle "" prefix _).
  - rewrite Hnew.
    rewrite <- (append_assoc prefix before), <- length_append.
    apply substring_middle.
  - rewrite Hnew.
    replace (String.append prefix
               (String.append before
                  (String.append selected (String.append after suffix))))
      with (String.append
              (String.append prefix
                 (String.append before (String.append selected after)))
              suffix)
      by (rewrite !append_assoc; reflexivity).
    replace (String.length prefix + String.length before + String.length selected
             + String.length after)
      with (String.length
              (String.append prefix
                 (String.append before (String.append selected after))))
      by (rewrite !length_append; lia).
    apply substring_tail.
Qed.

Lemma insertMarkdown_without_markers_witness :
  exists edit,
    insertMarkdown "a quick note" (Some (mkSelection 2 7)) "`" "`" = Some edit
    /\ newContent edit = "a `quick` note"
    /\ String.append (Js.substring (newContent edit) 0 2)
         (String.append
            (Js.substring (newContent edit)
               (selectionStart (restored edit)) (selectionEnd (restored edit)))
            (Js.substring (newContent edit)
               (selectionEnd (restored edit) + 1)
               (String.length (newContent edit))))
       = "a quick note".
Proof.
  eexists. split; [reflexivity | split; [reflexivity |]].
  apply (insertMarkdown_without_markers "a quick note" "`" "`" (mkSelection 2 7)).
  - simpl. lia.
  - simpl. lia.
  - reflexivity.
Defined.

Lemma splitSpaces_not_nil (afterSpace : bool) (s : string) :
  exists piece pieces, Js.splitSpaces afterSpace s = piece :: pieces.
Proof.
  revert afterSpace. induction s as [|c rest IH]; intros afterSpace; simpl.
  - eexists; eexists; reflexivity.
  - destruct (Js.isWhiteSpace c).
    + destruct afterSpace; [apply IH | eexists; eexists; reflexivity].
    + destruct (Js.splitSpaces false rest); eexists; eexists; reflexivity.
Qed.

(** The pieces of a split that are not empty are the words. *)
Lemma split_pieces (s : string) :
  (forall afterSpace,
      List.length (filter (fun word => 0 <? String.length word)
                     (Js.splitSpaces afterSpace s))
      = wordStarts true s)
  /\ List.length (filter (fun word => 0 <? String.length word)
                    (tl (Js.splitSpaces false s)))
     = wordStarts false s.
Proof.
  induction s as [|c rest [IHall IHtail]]; simpl.
  - split; [intros afterSpace |]; reflexivity.
  - destruct (Js.isWhiteSpace c).
    + split.
      * intros [|]; simpl; apply IHall.
      * simpl. apply IHall.
    + destruct (splitSpaces_not_nil false rest) as [piece [pieces Hsplit]].
      rewrite Hsplit in *. simpl in IHtail. simpl.
      split; [intros afterSpace |]; rewrite IHtail; reflexivity.
Qed.

Lemma wordStarts_trimStart (s : string) :
  wordStarts true (Js.trimStart s) = wordStarts true s.
Proof.
  induction s as [|c rest IH]; simpl.
  - reflexivity.
  - destruct (Js.isWhiteSpace c) eqn:Hc.
    + exact IH.
    + simpl. rewrite Hc. reflexivity.
Qed.

Lemma wordStarts_trimEnd (s : string) (afterSpace : bool) :
  wordStarts afterSpace (Js.trimEnd s) = wordStarts afterSpace s.
Proof.
  revert afterSpace. induction s as [|c rest IH]; intros afterSpace; simpl.
  - reflexivity.
  - destruct (Js.trimEnd rest) as [|x kept] eqn:Hrest.
    + destruct (Js.isWhiteSpace c) eqn:Hc; simpl.
      * rewrite <- IH. reflexivity.
      * rewrite Hc, <- IH. reflexivity.
    + simpl (wordStarts afterSpace (String c (String x kept))).
      destruct (Js.isWhiteSpace c); rewrite <- IH; reflexivity.
Qed.

(** X4.  The word count is the number of maximal runs of code units that
    are not white space, wherever the white space is. *)
Theorem countWords_counts_runs (content : string) :
  countWords content = wordStarts true content.
Proof.
  unfold countWords, Js.split_spaces, Js.trim.
  rewrite (proj1 (split_pieces _)).
  rewrite wordStarts_trimEnd. apply wordStarts_trimStart.
Qed.

Lemma wordStarts_blank (s : string) (afterSpace : bool) :
  blank s = true -> wordStarts afterSpace s = 0.
Proof.
  revert afterSpace. induction s as [|c rest IH]; intros afterSpace H; simpl in *.
  - reflexivity.
  - apply andb_true_iff in H. destruct H as [Hc Hrest].
    rewrite Hc. apply IH, Hrest.
Qed.

(** X5.  A content that is empty or only white space has no words. *)
Theorem countWords_blank (content : string) :
  blank content = true -> countWords content = 0.
Proof.
  intros H. unfold countWords, Js.split_spaces, Js.trim.
  rewrite (proj1 (split_pieces _)).
  rewrite wordStarts_trimEnd, wordStarts_trimStart.
  apply wordStarts_blank, H.
Qed.

Lemma countWords_blank_witness :
  blank "   " = true /\ countWords "   " = 0 /\ countWords "" = 0.
Proof.
  split; [reflexivity | split].
  - apply (countWords_blank "   "). reflexivity.
  - apply (countWords_blank ""). reflexivity.
Defined.

Lemma wordStarts_append (a b : string) (c : ascii) (afterSpace : bool) :
  Js.isWhiteSpace c = true ->
  wordStarts afterSpace (String.append a (String c b))
  = wordStarts afterSpace a + wordStarts true b.
Proof.
  intros Hc. revert afterSpace. induction a as [|x a IH]; intros afterSpace; simpl.
  - rewrite Hc. reflexivity.
  - destruct (Js.isWhiteSpace x).
    + apply IH.
    + rewrite IH. lia.
Qed.

(** X6.  Word counts add up over white space: two contents joined by a
    white-space code unit have the words of both. *)
Theorem countWords_append (a b : string) (c : ascii) :
  Js.isWhiteSpace c = true ->
  countWords (String.append a (String c b)) = countWords a + countWords b.
Proof.
  intros Hc. unfold countWords, Js.split_spaces, Js.trim.
  rewrite !(proj1 (split_pieces _)).
  rewrite !wordStarts_trimEnd, !wordStarts_trimStart.
  apply wordStarts_append, Hc.
Qed.

Lemma countWords_append_witness :
  countWords (String.append "  two  words" (String " " "and three more "))
  = countWords "  two  words" + countWords "and three more ".
Proof.
  apply (countWords_append "  two  words" "and three more " " "). reflexivity.
Defined.

End MarkdownEditorLaws.

(* ===================================================================== *)
(** * Properties of the slug of a new page                                *)
(* ===================================================================== *)

Module SlugLaws.

Import PageEditor StringFacts.
Local Open Scope nat_scope.

Lemma hyphen_not_slug : isSlugChar hyphen = false.
Proof. reflexivity. Qed.

Lemma slug_not_hyphen (c : ascii) : isSlugChar c = true -> Ascii.eqb c hyphen = false.
Proof.
  intros H. destruct (Ascii.eqb_spec c hyphen) as [->|_]; [| reflexivity].
  rewrite hyphen_not_slug in H. discriminate H.
Qed.

Lemma hyphenate_single (inRun : bool) (s : string) :
  singleHyphens inRun (hyphenate inRun s) = true.
Proof.
  revert inRun. induction s as [|c rest IH]; intros inRun; simpl.
  - reflexivity.
  - destruct (isSlugChar c) eqn:Hc.
    + simpl. rewrite Hc. apply IH.
    + destruct inRun.
      * apply IH.
      * simpl. apply IH.
Qed.

Lemma dropLastHyphen_cons (c : ascii) (x : ascii) (rest : string) :
  dropLastHyphen (String c (String x rest))
  = String c (dropLastHyphen (String x rest)).
Proof. reflexivity. Qed.

(** Without its last hyphen, what the first replacement leaves is well
    formed from where it is read, unless nothing is read after a
    hyphen. *)
Lemma dropLastHyphen_clean (s : string) (afterHyphen : bool) :
  singleHyphens afterHyphen s = true ->
  afterHyphen = false \/ s <> "" ->
  cleanFrom afterHyphen (dropLastHyphen s) = true.
Proof.
  revert afterHyphen. induction s as [|c rest IH]; intros afterHyphen Hs Hne.
  - destruct Hne as [->|Hne]; [reflexivity | contradiction Hne; reflexivity].
  - simpl in Hs. destruct rest as [|x rest].
    + simpl. destruct (isSlugChar c) eqn:Hc.
      * rewrite (slug_not_hyphen c Hc). simpl. rewrite Hc. reflexivity.
      * apply andb_true_iff in Hs. destruct Hs as [Hs _].
        apply andb_true_iff in Hs. destruct Hs as [Heq Hafter].
        rewrite Heq. destruct afterHyphen; [discriminate Hafter | reflexivity].
    + rewrite dropLastHyphen_cons.
      cbn [cleanFrom]. destruct (isSlugChar c) eqn:Hc.
      * apply IH; [exact Hs | left; reflexivity].
      * apply andb_true_iff in Hs. destruct Hs as [Hs Hrest].
        rewrite Hs. cbn [andb]. apply IH; [exact Hrest | right; discriminate].
Qed.

Lemma cleanFrom_weaken (s : string) : cleanFrom true s = true -> cleanFrom false s = true.
Proof.
  destruct s as [|c rest]; simpl.
  - discriminate.
  - destruct (isSlugChar c); [trivial |].
    rewrite andb_false_r. discriminate.
Qed.

(** A slug is empty or well formed from its start. *)
Lemma slugify_clean (pageTitle : string) :
  slugify pageTitle = "" \/ cleanFrom true (slugify pageTitle) = true.
Proof.
  unfold slugify.
  pose proof (hyphenate_single false (Js.toLowerCase pageTitle)) as Hsingle.
  destruct (hyphenate false (Js.toLowerCase pageTitle)) as [|c rest]; [left; reflexivity |].
  cbn [stripHyphens]. simpl in Hsingle.
  destruct (isSlugChar c) eqn:Hc.
  - rewrite (slug_not_hyphen c Hc). right.
    assert (H : cleanFrom false (dropLastHyphen (String c rest)) = true).
    { apply dropLastHyphen_clean; [| left; reflexivity]. simpl. rewrite Hc. exact Hsingle. }
    destruct rest as [|x rest].
    + simpl in *. rewrite (slug_not_hyphen c Hc) in *. simpl in *. rewrite Hc in *. exact H.
    + rewrite dropLastHyphen_cons in *. cbn [cleanFrom] in *. rewrite Hc in *. exact H.
  - apply andb_true_iff in Hsingle. destruct Hsingle as [Heq Hrest]. simpl in Heq.
    rewrite andb_true_r in Heq. rewrite Heq.
    destruct rest as [|x rest]; [left; reflexivity | right].
    apply dropLastHyphen_clean; [exact Hrest | right; discriminate].
Qed.

Lemma cleanFrom_chars (s : string) (afterHyphen : bool) (c : ascii) :
  cleanFrom afterHyphen s = true ->
  In c (list_ascii_of_string s) -> isSlugChar c = true \/ c = hyphen.
Proof.
  revert afterHyphen. induction s as [|x rest IH]; intros afterHyphen Hs Hin; simpl in *.
  - contradiction.
  - destruct (isSlugChar x) eqn:Hx.
    + destruct Hin as [<-|Hin]; [left; exact Hx | exact (IH _ Hs Hin)].
    + apply andb_true_iff in Hs. destruct Hs as [Hs Hrest].
      apply andb_true_iff in Hs. destruct Hs as [Heq _].
      destruct Hin as [<-|Hin]; [right; apply Ascii.eqb_eq, Heq | exact (IH _ Hrest Hin)].
Qed.

Lemma cleanFrom_no_last_hyphen (p : string) (afterHyphen : bool) :
  cleanFrom afterHyphen (String.append p (String hyphen "")) = false.
Proof.
  revert afterHyphen. induction p as [|x p IH]; intros afterHyphen;
    cbn [String.append cleanFrom].
  - rewrite hyphen_not_slug. cbn [cleanFrom negb]. rewrite ?hyphen_not_slug.
    rewrite ?andb_false_r. reflexivity.
  - destruct (isSlugChar x); [apply IH |].
    rewrite IH. apply andb_false_r.
Qed.

Lemma cleanFrom_no_double_hyphen (p r : string) (afterHyphen : bool) :
  cleanFrom afterHyphen (String.append p (String hyphen (String hyphen r))) = false.
Proof.
  revert afterHyphen. induction p as [|x p IH]; intros afterHyphen;
    cbn [String.append cleanFrom].
  - rewrite hyphen_not_slug. cbn [cleanFrom negb]. rewrite ?hyphen_not_slug.
    rewrite ?andb_false_r. reflexivity.
  - destruct (isSlugChar x); [apply IH |].
    rewrite IH. apply andb_false_r.
Qed.

(** X7.  The slug of a new page is safe in a URL path: it has only the
    letters [a]-[z], digits and hyphens, it neither starts nor ends with
    a hyphen, and it has no two hyphens in a row. *)
Theorem slugify_well_formed (pageTitle : string) :
  (forall c, In c (list_ascii_of_string (slugify pageTitle)) ->
             isSlugChar c = true \/ c = hyphen)
  /\ (forall rest, slugify pageTitle <> String hyphen rest)
  /\ (forall p, slugify pageTitle <> String.append p (String hyphen ""))
  /\ (forall p r, slugify pageTitle
                  <> String.append p (String hyphen (String hyphen r))).
Proof.
  destruct (slugify_clean pageTitle) as [Hempty|Hclean].
  - rewrite Hempty. repeat split.
    + intros c Hin. contradiction Hin.
    + discriminate.
    + intros [|x p]; discriminate.
    + intros [|x p] r; discriminate.
  - repeat split.
    + intros c. apply (cleanFrom_chars _ _ _ Hclean).
    + intros rest Heq. rewrite Heq in Hclean. cbn [cleanFrom] in Hclean.
      rewrite hyphen_not_slug in Hclean. rewrite andb_false_r in Hclean.
      discriminate Hclean.
    + intros p Heq. rewrite Heq, cleanFrom_no_last_hyphen in Hclean. discriminate Hclean.
    + intros p r Heq. rewrite Heq, cleanFrom_no_double_hyphen in Hclean.
      discriminate Hclean.
Qed.

Lemma lowerCase_slug (c : ascii) : isSlugChar c = true -> Js.lowerCase c = c.
Proof.
  destruct c as [[|] [|] [|] [|] [|] [|] [|] [|]]; intros H;
    try reflexivity; discriminate H.
Qed.

Lemma toLowerCase_clean (s : string) (afterHyphen : bool) :
  cleanFrom afterHyphen s = true -> Js.toLowerCase s = s.
Proof.
  revert afterHyphen. induction s as [|c rest IH]; intros afterHyphen Hs; simpl in *.
  - reflexivity.
  - destruct (isSlugChar c) eqn:Hc.
    + rewrite (lowerCase_slug c Hc), (IH _ Hs). reflexivity.
    + apply andb_true_iff in Hs. destruct Hs as [Hs Hrest].
      apply andb_true_iff in Hs. destruct Hs as [Heq _].
      apply Ascii.eqb_eq in Heq. subst c.
      rewrite (IH _ Hrest). reflexivity.
Qed.

Lemma hyphenate_clean (s : string) (afterHyphen : bool) :
  cleanFrom afterHyphen s = true -> hyphenate afterHyphen s = s.
Proof.
  revert afterHyphen. induction s as [|c rest IH]; intros afterHyphen Hs; simpl in *.
  - reflexivity.
  - destruct (isSlugChar c) eqn:Hc.
    + rewrite (IH _ Hs). reflexivity.
    + apply andb_true_iff in Hs. destruct Hs as [Hs Hrest].
      apply andb_true_iff in Hs. destruct Hs as [Heq Hafter].
      apply Ascii.eqb_eq in Heq. subst c.
      destruct afterHyphen; [discriminate Hafter |].
      rewrite (IH _ Hrest). reflexivity.
Qed.

Lemma dropLastHyphen_fixed (s : string) (afterHyphen : bool) :
  cleanFrom afterHyphen s = true -> dropLastHyphen s = s.
Proof.
  revert afterHyphen. induction s as [|c rest IH]; intros afterHyphen Hs.
  - reflexivity.
  - cbn [cleanFrom] in Hs. destruct rest as [|x rest].
    + simpl. destruct (isSlugChar c) eqn:Hc.
      * rewrite (slug_not_hyphen c Hc). reflexivity.
      * cbn [cleanFrom negb] in Hs. rewrite andb_false_r in Hs. discriminate Hs.
    + rewrite dropLastHyphen_cons. f_equal.
      destruct (isSlugChar c).
      * exact (IH _ Hs).
      * apply andb_true_iff in Hs. destruct Hs as [_ Hrest]. exact (IH _ Hrest).
Qed.

(** X8.  Making a slug of a slug changes nothing: a title and its own
    slug get the same slug. *)
Theorem slugify_idempotent (pageTitle : string) :
  slugify (slugify pageTitle) = slugify pageTitle.
Proof.
  destruct (slugify_clean pageTitle) as [Hempty|Hclean].
  - rewrite Hempty. reflexivity.
  - unfold slugify at 1.
    rewrite (toLowerCase_clean _ _ Hclean).
    rewrite (hyphenate_clean _ _ (cleanFrom_weaken _ Hclean)).
    destruct (slugify pageTitle) as [|c rest] eqn:Hslug; [reflexivity |].
    cbn [stripHyphens].
    assert (Hc : isSlugChar c = true).
    { cbn [cleanFrom] in Hclean. destruct (isSlugChar c); [reflexivity |].
      rewrite andb_false_r in Hclean. discriminate Hclean. }
    rewrite (slug_not_hyphen c Hc).
    apply (dropLastHyphen_fixed _ _ Hclean).
Qed.

Lemma letter_lowerCase (c : ascii) :
  isLetterOrDigit c = true -> isSlugChar (Js.lowerCase c) = true.
Proof.
  destruct c as [[|] [|] [|] [|] [|] [|] [|] [|]]; intros H;
    try reflexivity; discriminate H.
Qed.

(** Lower-casing a title with an ASCII letter or digit leaves a letter
    [a]-[z] or a digit. *)
Lemma toLowerCase_word (pageTitle : string) :
  wordless pageTitle = false -> plain (Js.toLowerCase pageTitle) = false.
Proof.
  induction pageTitle as [|c rest IH]; simpl; intros Hw.
  - discriminate Hw.
  - destruct (isLetterOrDigit c) eqn:Hc.
    + rewrite (letter_lowerCase c Hc). reflexivity.
    + simpl in Hw. rewrite (IH Hw). apply andb_false_r.
Qed.

Lemma hyphenate_plain (lowered : string) (inRun : bool) :
  plain lowered = true ->
  hyphenate inRun lowered
  = match lowered with
    | EmptyString => EmptyString
    | String _ _ => if inRun then EmptyString else String hyphen EmptyString
    end.
Proof.
  revert inRun. induction lowered as [|c rest IH]; intros inRun Hp; simpl in *.
  - reflexivity.
  - apply andb_true_iff in Hp. destruct Hp as [Hc Hrest].
    destruct (isSlugChar c); [discriminate Hc |].
    rewrite (IH true Hrest). destruct rest; destruct inRun; reflexivity.
Qed.

Lemma hyphenate_keeps_word (lowered : string) (inRun : bool) :
  plain lowered = false ->
  exists c, isSlugChar c = true
            /\ In c (list_ascii_of_string (hyphenate inRun lowered)).
Proof.
  revert inRun. induction lowered as [|c rest IH]; intros inRun Hp; simpl in *.
  - discriminate Hp.
  - destruct (isSlugChar c) eqn:Hc.
    + exists c. split; [exact Hc | left; reflexivity].
    + simpl in Hp. destruct inRun.
      * apply IH, Hp.
      * destruct (IH true Hp) as [x [Hx Hin]]. exists x. split; [exact Hx | right; exact Hin].
Qed.

Lemma dropLastHyphen_keeps_word (s : string) (c : ascii) :
  isSlugChar c = true -> In c (list_ascii_of_string s) ->
  In c (list_ascii_of_string (dropLastHyphen s)).
Proof.
  intros Hc. induction s as [|x rest IH]; intros Hin.
  - exact Hin.
  - destruct rest as [|y rest].
    + simpl in *. destruct Hin as [->|[]].
      rewrite (slug_not_hyphen c Hc). left; reflexivity.
    + rewrite dropLastHyphen_cons. cbn [list_ascii_of_string In] in *.
      destruct Hin as [Heq|Hin]; [left; exact Heq | right; apply IH, Hin].
Qed.

(** The two replacements leave nothing exactly of a string without any
    letter [a]-[z] or digit. *)
Lemma stripHyphens_empty (lowered : string) :
  stripHyphens (hyphenate false lowered) = "" <-> plain lowered = true.
Proof.
  split.
  - intros Hempty. destruct (plain lowered) eqn:Hp; [reflexivity | exfalso].
    destruct (hyphenate_keeps_word lowered false Hp) as [c [Hc Hin]].
    destruct (hyphenate false lowered) as [|x rest]; [contradiction Hin |].
    cbn [stripHyphens] in Hempty.
    assert (Hkept : In c (list_ascii_of_string
                            (if Ascii.eqb x hyphen then dropLastHyphen rest
                             else dropLastHyphen (String x rest)))).
    { destruct (Ascii.eqb_spec x hyphen) as [->|_].
      - apply dropLastHyphen_keeps_word; [exact Hc |].
        destruct Hin as [<-|Hin]; [rewrite hyphen_not_slug in Hc; discriminate Hc | exact Hin].
      - apply dropLastHyphen_keeps_word; assumption. }
    rewrite Hempty in Hkept. contradiction Hkept.
  - intros Hp. rewrite (hyphenate_plain _ _ Hp).
    destruct lowered; reflexivity.
Qed.

(** X9.  When the slug is empty.  The two replacements of [createNewPage]
    leave the empty string exactly when the string they are given, the
    lower-cased title, has no letter [a]-[z] and no digit; this holds of
    any string, whatever the lower-casing made of the title.  A title
    with an ASCII letter or digit never gets an empty slug. *)
Theorem slug_empty_iff_plain :
  (forall lowered : string,
     stripHyphens (hyphenate false lowered) = "" <-> plain lowered = true)
  /\ (forall pageTitle : string,
        slugify pageTitle = "" <-> plain (Js.toLowerCase pageTitle) = true)
  /\ (forall pageTitle : string,
        wordless pageTitle = false -> slugify pageTitle <> "").
Proof.
  split; [exact stripHyphens_empty | split].
  - intros pageTitle. unfold slugify. apply stripHyphens_empty.
  - intros pageTitle Hw Hempty. unfold slugify in Hempty.
    apply stripHyphens_empty in Hempty.
    rewrite (toLowerCase_word pageTitle Hw) in Hempty. discriminate Hempty.
Qed.

Lemma slug_empty_iff_plain_witness :
  plain "?!  (...)" = true
  /\ stripHyphens (hyphenate false "?!  (...)") = ""
  /\ Js.trim "?!  (...)" <> ""
  /\ wordless "Q&A" = false
  /\ slugify "Q&A" <> "".
Proof.
  destruct slug_empty_iff_plain as [Hplain [_ Hword]].
  split; [reflexivity | split; [| split; [| split]]].
  - apply (proj2 (Hplain "?!  (...)")). reflexivity.
  - simpl. discriminate.
  - reflexivity.
  - apply (Hword "Q&A"). reflexivity.
Defined.

End SlugLaws.

(* ===================================================================== *)
(** * More properties of the page editor                                  *)
(* ===================================================================== *)

Module PageEditorFlows.

Import Supabase Ui PageEditor UiFacts Scenario.
Local Open Scope task_scope.
Local Open Scope nat_scope.

(** X10.  Without a selected project or with a title that is empty after
    trimming, [createNewPage] does nothing at all: no request, no
    notification, the dialog stays as it is. *)
Theorem createNewPage_ignored (env : Render) (w : World Live) :
  Js.truthy (projectId env) = false
  \/ Js.trim (newPageTitle (cells env)) = "" ->
  createNewPage env w = (Returned tt, w).
Proof.
  intros H. unfold createNewPage.
  destruct (projectId env) as [project_id|]; [| reflexivity].
  destruct H as [H|H].
  - simpl in H. rewrite H. reflexivity.
  - rewrite H. rewrite orb_true_r. reflexivity.
Qed.

Lemma createNewPage_ignored_witness :
  createNewPage (render (typing "   ")) (typing "   ") = (Returned tt, typing "   ").
Proof.
  apply (createNewPage_ignored (render (typing "   ")) (typing "   ")).
  right. reflexivity.
Defined.

Lemma gen_id_truthy (n : nat) : Js.truthy (Some (gen_id n)) = true.
Proof. reflexivity. Qed.

(** X11.  A new page goes to the end: when the backend serves the
    insert, the page table and the page list of the editor both grow by
    the stored page, which has the title as typed, the slug of the title,
    [order_index] equal to the number of pages of the render and
    [is_published = false]; the dialog closes, its field is emptied and
    the navigation selects the new page. *)
Theorem createNewPage_appends (env : Render) (w : World Live) (project_id : string) :
  projectId env = Some project_id ->
  project_id <> "" ->
  Js.trim (newPageTitle (cells env)) <> "" ->
  hd false (faults w) = false ->
  exists created,
    Supabase.pages (backend (run (createNewPage env) w))
    = Supabase.pages (backend w) ++ [created]
    /\ pages (current (ui (run (createNewPage env) w)))
       = pages (current (ui w)) ++ [created]
    /\ Page.project_id created = project_id
    /\ Page.title created = newPageTitle (cells env)
    /\ Page.slug created = slugify (newPageTitle (cells env))
    /\ Page.order_index created = Z.of_nat (List.length (pages (cells env)))
    /\ Page.is_published created = false
    /\ showNewPageDialog (current (ui (run (createNewPage env) w))) = false
    /\ newPageTitle (current (ui (run (createNewPage env) w))) = ""
    /\ App.currentView (app (run (createNewPage env) w)) = App.editor
    /\ App.selectedPageId (app (run (createNewPage env) w)) = Some (Page.id created)
    /\ toasts (run (createNewPage env) w)
       = toasts w ++ [success "Page created successfully!"].
Proof.
  intros Hproject Hne Htitle Hserved.
  unfold run, createNewPage. rewrite Hproject.
  destruct project_id as [|c0 rest0]; [contradiction Hne; reflexivity |].
  destruct (Js.trim (newPageTitle (cells env))) as [|c rest] eqn:Htrim;
    [contradiction Htitle; reflexivity |].
  cbn [Js.truthy_string negb orb].
  destruct w as [b fs stamp reqs ts con a u].
  cbn [faults] in Hserved.
  eexists.
  destruct fs as [|[|] fs]; cbn [hd] in Hserved; try discriminate Hserved;
    repeat split.
Qed.

Lemma createNewPage_appends_witness :
  exists created,
    pages (current (ui (run (createNewPage (render (typing "Pricing & Plans")))
                          (typing "Pricing & Plans"))))
    = [homeP1; aboutP1; contactP1; created]
    /\ Page.slug created = "pricing-plans"
    /\ Page.order_index created = 3%Z.
Proof.
  destruct (createNewPage_appends (render (typing "Pricing & Plans"))
              (typing "Pricing & Plans") "p1")
    as [created [_ [Hlist [_ [_ [Hslug [Horder _]]]]]]].
  - reflexivity.
  - discriminate.
  - simpl. discriminate.
  - reflexivity.
  - exists created. split; [exact Hlist | split; [exact Hslug | exact Horder]].
Defined.

(** X12.  When the backend rejects the insert, [createNewPage] changes
    neither the backend nor the editor nor the navigation: the dialog
    stays open with the title in it, and the error notification is
    shown. *)
Theorem createNewPage_rejected (env : Render) (w : World Live) (project_id : string) :
  projectId env = Some project_id ->
  project_id <> "" ->
  Js.trim (newPageTitle (cells env)) <> "" ->
  hd false (faults w) = true ->
  backend (run (createNewPage env) w) = backend w
  /\ ui (run (createNewPage env) w) = ui w
  /\ app (run (createNewPage env) w) = app w
  /\ toasts (run (createNewPage env) w) = toasts w ++ [failure "Failed to create page"].
Proof.
  intros Hproject Hne Htitle Hrefused.
  unfold run, createNewPage. rewrite Hproject.
  destruct project_id as [|c0 rest0]; [contradiction Hne; reflexivity |].
  destruct (Js.trim (newPageTitle (cells env))) as [|c rest] eqn:Htrim;
    [contradiction Htitle; reflexivity |].
  cbn [Js.truthy_string negb orb].
  destruct w as [b fs stamp reqs ts con a u].
  cbn [faults] in Hrefused.
  destruct fs as [|[|] fs]; cbn [hd] in Hrefused; try discriminate Hrefused.
  repeat split.
Qed.

Lemma createNewPage_rejected_witness :
  ui (run (createNewPage (render (typing "Pricing"))) (refusing (typing "Pricing")))
  = ui (typing "Pricing")
  /\ Supabase.pages
       (backend (run (createNewPage (render (typing "Pricing")))
                   (refusing (typing "Pricing"))))
     = [homeP1; aboutP1; contactP1].
Proof.
  destruct (createNewPage_rejected (render (typing "Pricing"))
              (refusing (typing "Pricing")) "p1")
    as [Hbackend [Hui _]].
  - reflexivity.
  - discriminate.
  - simpl. discriminate.
  - reflexivity.
  - split; [exact Hui | rewrite Hbackend; reflexivity].
Defined.

Lemma or_same (a : option string) : Js.or a a = a.
Proof. unfold Js.or. destruct (Js.truthy a); reflexivity. Qed.

Lemma or_or (a b : option string) : Js.or a (Js.or a b) = Js.or a b.
Proof. unfold Js.or. destruct (Js.truthy a) eqn:Ha; rewrite ?Ha; reflexivity. Qed.

Lemma find_head (key : string) (first : Page.t) (others : list Page.t) :
  Page.id first = key ->
  find (fun p => Js.strict_eq (Page.id p) (Some key)) (first :: others) = Some first.
Proof. intros <-. simpl. rewrite String.eqb_refl. reflexivity. Qed.

(** The values the selection effect writes are the same when it runs
    again on the render that follows it. *)
Lemma selectPage_again (w : World Live) :
  run (click selectPage) (run (click selectPage) w) = run (click selectPage) w.
Proof.
  destruct w as [b fs stamp reqs ts con a [cs tm]].
  unfold click, run, render, selectPage.
  cbn [ui current cells pageId projectId app].
  destruct (pages cs) as [|first others] eqn:Hpages.
  - cbn. rewrite Hpages. reflexivity.
  - destruct (Js.truthy (App.selectedPageId a)) eqn:Hpage.
    + destruct (find (fun p => Js.strict_eq (Page.id p) (App.selectedPageId a))
                  (first :: others)) as [page|] eqn:Hfind.
      * cbn. rewrite Hpages, Hpage, Hfind. reflexivity.
      * cbn. rewrite Hpages, Hpage, Hfind. reflexivity.
    + cbn. rewrite Hpages.
      destruct (Js.truthy (Some (Page.id first))) eqn:Hid.
      * assert (HX : Js.or (Some (Page.id first)) (App.selectedPageId a)
                     = Some (Page.id first))
          by (unfold Js.or; rewrite Hid; reflexivity).
        rewrite HX, Hid. rewrite find_head by reflexivity. reflexivity.
      * assert (HX : Js.or (Some (Page.id first)) (App.selectedPageId a)
                     = App.selectedPageId a)
          by (unfold Js.or; rewrite Hid; reflexivity).
        rewrite HX, Hpage. cbn. unfold App.navigateToView. cbn.
        rewrite !or_same, !HX. reflexivity.
Qed.

Lemma selectPage_selected (w : World Live) (first : Page.t) (others : list Page.t) :
  pages (current (ui w)) = first :: others ->
  Page.id first <> "" ->
  Js.truthy (pageId (render (run (click selectPage) w))) = true.
Proof.
  intros Hpages Hid.
  destruct w as [b fs stamp reqs ts con a [cs tm]].
  cbn [ui current] in Hpages.
  unfold click, run, render, selectPage.
  cbn [ui current cells pageId projectId app]. rewrite Hpages.
  destruct (Js.truthy (App.selectedPageId a)) eqn:Hpage.
  - destruct (find (fun p => Js.strict_eq (Page.id p) (App.selectedPageId a))
                (first :: others)) as [page|]; cbn; exact Hpage.
  - cbn. unfold Js.or. cbn.
    destruct (Page.id first); [contradiction Hid; reflexivity | reflexivity].
Qed.

(** X13.  The selection effect on a page list whose first page has an id
    that is not empty: after one run a page id is selected, so that the
    effect of the next render is in the branch without [onNavigate]; and
    that next run writes the values the first one wrote, to the cells and
    to the selection of the application. *)
Theorem selectPage_selects_once (w : World Live)
  (first : Page.t) (others : list Page.t) :
  pages (current (ui w)) = first :: others ->
  Page.id first <> "" ->
  Js.truthy (pageId (render (run (click selectPage) w))) = true
  /\ run (click selectPage) (run (click selectPage) w) = run (click selectPage) w.
Proof.
  intros Hpages Hid. split.
  - exact (selectPage_selected w first others Hpages Hid).
  - apply selectPage_again.
Qed.

Lemma selectPage_selects_once_witness :
  App.selectedPageId (app (run (click selectPage) unselected)) = Some "pg1"
  /\ currentPage (current (ui (run (click selectPage) unselected))) = Some homeP1
  /\ Js.truthy (pageId (render (run (click selectPage) unselected))) = true
  /\ run (click selectPage) (run (click selectPage) unselected)
     = run (click selectPage) unselected.
Proof.
  split; [reflexivity | split; [reflexivity |]].
  apply (selectPage_selects_once unselected homeP1 [aboutP1; contactP1]).
  - reflexivity.
  - discriminate.
Defined.

(** When the page list changes, as it does after a save, the selection
    effect runs again and writes the cells from the page in the list:
    after [handlePublish] and its save, [isPublished] is back to the
    flag that was saved. *)
Lemma publish_then_effect_shows_saved_flag :
  isPublished
    (pageData (current (ui (run (click handlePublish ;; fire ;; click selectPage)
                              aboutEditor))))
  = false.
Proof. reflexivity. Qed.

Lemma find_unknown (key : option string) (ps : list Page.t) :
  (forall p, In p ps -> Some (Page.id p) <> key) ->
  find (fun p => Js.strict_eq (Page.id p) key) ps = None.
Proof.
  intros H. induction ps as [|p ps IH]; simpl.
  - reflexivity.
  - destruct key as [k|]; simpl.
    + destruct (String.eqb_spec (Page.id p) k) as [Heq|_].
      * exfalso. apply (H p); [left; reflexivity | rewrite Heq; reflexivity].
      * apply IH. intros q Hq. apply H. right. exact Hq.
    + apply IH. intros q Hq. apply H. right. exact Hq.
Qed.

(** X14.  A selected page that is not among the loaded pages, such as the
    page of the project edited before, is not replaced by the first page:
    the selection effect changes nothing, and an editor without a current
    page stays on the spinner of the page. *)
Theorem selectPage_unknown_page (w : World Live) :
  Js.truthy (App.selectedPageId (app w)) = true ->
  (forall p, In p (pages (current (ui w))) ->
             Some (Page.id p) <> App.selectedPageId (app w)) ->
  loading (current (ui w)) = false ->
  project (current (ui w)) <> None ->
  pages (current (ui w)) <> [] ->
  currentPage (current (ui w)) = None ->
  run (click selectPage) w = w
  /\ screen (current (ui (run (click selectPage) w))) = LoadingPage.
Proof.
  intros Hpage Hunknown Hloading Hproject Hpages Hcurrent.
  assert (Hrun : run (click selectPage) w = w).
  { pose proof (find_unknown _ _ Hunknown) as Hfind.
    unfold run, click, selectPage, render. cbn [cells pageId].
    destruct (pages (current (ui w))) as [|first others];
      [contradiction Hpages; reflexivity |].
    rewrite Hpage, Hfind. reflexivity. }
  split; [exact Hrun |].
  rewrite Hrun. unfold screen. rewrite Hloading, Hcurrent.
  destruct (project (current (ui w))); [| contradiction Hproject; reflexivity].
  destruct (pages (current (ui w))); [contradiction Hpages; reflexivity | reflexivity].
Qed.

Lemma selectPage_unknown_page_witness :
  App.selectedProjectId (app stalePage) = Some "p1"
  /\ App.selectedPageId (app stalePage) = Some "pg-of-p0"
  /\ run (click selectPage) stalePage = stalePage
  /\ screen (current (ui (run (click selectPage) stalePage))) = LoadingPage.
Proof.
  split; [reflexivity | split; [reflexivity |]].
  apply (selectPage_unknown_page stalePage).
  - reflexivity.
  - intros p [<-|[<-|[<-|[]]]]; discriminate.
  - reflexivity.
  - discriminate.
  - discriminate.
  - reflexivity.
Defined.

Lemma filter_map_commute {A : Type} (keep : A -> bool) (g : A -> A) (l : list A) :
  (forall x, keep (g x) = keep x) ->
  filter keep (map g l) = map g (filter keep l).
Proof.
  intros H. induction l as [|x l IH]; simpl.
  - reflexivity.
  - rewrite H. destruct (keep x); simpl; rewrite IH; reflexivity.
Qed.

Lemma Forall2_map_both {A : Type} (R : A -> A -> Prop) (f g : A -> A) (l1 l2 : list A) :
  Forall2 R l1 l2 ->
  (forall x y, R x y -> R (f x) (g y)) ->
  Forall2 R (map f l1) (map g l2).
Proof.
  intros H Hfg. induction H as [|x y l1 l2 Hxy _ IH]; simpl.
  - constructor.
  - constructor; [apply Hfg, Hxy | exact IH].
Qed.

Lemma pagesOfProject_updatePage (u : PageUpdate.t) (key project_id : string) (b : Backend) :
  pagesOfProject project_id (updatePage u key b)
  = map (fun p => if String.eqb (Page.id p) key then applyPageUpdate u p else p)
      (pagesOfProject project_id b).
Proof.
  unfold pagesOfProject, updatePage. cbn [Supabase.pages].
  apply filter_map_commute.
  intros p. destruct (String.eqb (Page.id p) key); reflexivity.
Qed.

(** The local merge and the stored update of a page agree but for
    [updated_at]. *)
Lemma merged_sameButStamp (p q : Page.t) (d : PageData) (stamp key : string) :
  sameButStamp p q ->
  sameButStamp
    (if String.eqb (Page.id p) key then merged p d else p)
    (if String.eqb (Page.id q) key then applyPageUpdate (changes d stamp) q else q).
Proof.
  intros H. pose proof H as [Hid Hrest]. rewrite <- Hid.
  destruct (String.eqb (Page.id p) key); [| exact H].
  unfold sameButStamp in *. cbn. intuition congruence.
Qed.

(** The world a served save of the render that is on the screen leaves. *)
Lemma handleSave_served (w : World Live) (page : Page.t) :
  currentPage (current (ui w)) = Some page ->
  Js.truthy (App.selectedProjectId (app w)) = true ->
  hd false (faults w) = false ->
  backend (run (click handleSave) w)
  = updatePage (changes (pageData (current (ui w))) (date_now w)) (Page.id page)
      (backend w)
  /\ pages (current (ui (run (click handleSave) w)))
     = map (fun p => if String.eqb (Page.id p) (Page.id page)
                     then merged p (pageData (current (ui w))) else p)
         (pages (current (ui w)))
  /\ saving (current (ui (run (click handleSave) w))) = false
  /\ toasts (run (click handleSave) w)
     = toasts w ++ [success "Page saved successfully!"].
Proof.
  intros Hpage Hproject Hserved.
  unfold run, click, handleSave, render. cbn [cells projectId].
  rewrite Hpage, Hproject. cbn [negb].
  destruct w as [b fs stamp reqs ts con a [cs tm]].
  cbn [faults] in Hserved.
  destruct fs as [|[|] fs]; cbn [hd] in Hserved; try discriminate Hserved;
    repeat split.
Qed.

(** X15.  Saving keeps the page list of the editor in step with the
    backend: if the list agrees with the stored pages of a project but for
    [updated_at], it still does after a served save, which ends with
    [saving = false] and the success notification. *)
Theorem handleSave_keeps_list_in_step (w : World Live) (page : Page.t)
  (project_id : string) :
  currentPage (current (ui w)) = Some page ->
  Js.truthy (App.selectedProjectId (app w)) = true ->
  hd false (faults w) = false ->
  Forall2 sameButStamp (pages (current (ui w)))
    (pagesOfProject project_id (backend w)) ->
  Forall2 sameButStamp (pages (current (ui (run (click handleSave) w))))
    (pagesOfProject project_id (backend (run (click handleSave) w)))
  /\ saving (current (ui (run (click handleSave) w))) = false
  /\ toasts (run (click handleSave) w)
     = toasts w ++ [success "Page saved successfully!"].
Proof.
  intros Hpage Hproject Hserved Hstep.
  destruct (handleSave_served w page Hpage Hproject Hserved)
    as [Hbackend [Hlist [Hsaving Htoasts]]].
  split; [| split; assumption].
  rewrite Hbackend, Hlist, pagesOfProject_updatePage.
  apply Forall2_map_both; [exact Hstep |].
  intros p q Hpq. apply merged_sameButStamp, Hpq.
Qed.

Lemma sameButStamp_refl (p : Page.t) : sameButStamp p p.
Proof. unfold sameButStamp. repeat split. Qed.

Lemma handleSave_keeps_list_in_step_witness :
  Forall2 sameButStamp (pages (current (ui aboutEditor)))
    (pagesOfProject "p1" (backend aboutEditor))
  /\ Forall2 sameButStamp
       (pages (current (ui (run (click handleSave) aboutEditor))))
       (pagesOfProject "p1" (backend (run (click handleSave) aboutEditor))).
Proof.
  assert (H : Forall2 sameButStamp (pages (current (ui aboutEditor)))
                (pagesOfProject "p1" (backend aboutEditor))).
  { repeat constructor. }
  split; [exact H |].
  apply (handleSave_keeps_list_in_step aboutEditor aboutP1 "p1").
  - reflexivity.
  - reflexivity.
  - reflexivity.
  - exact H.
Defined.

(** X16.  A save the backend rejects changes neither the backend nor the
    page list of the editor; it ends with [saving = false] and the error
    notification. *)
Theorem handleSave_rejected (w : World Live) (page : Page.t) :
  currentPage (current (ui w)) = Some page ->
  Js.truthy (App.selectedProjectId (app w)) = true ->
  hd false (faults w) = true ->
  backend (run (click handleSave) w) = backend w
  /\ pages (current (ui (run (click handleSave) w))) = pages (current (ui w))
  /\ pageData (current (ui (run (click handleSave) w))) = pageData (current (ui w))
  /\ saving (current (ui (run (click handleSave) w))) = false
  /\ toasts (run (click handleSave) w) = toasts w ++ [failure "Failed to save page"].
Proof.
  intros Hpage Hproject Hrefused.
  unfold run, click, handleSave, render. cbn [cells projectId].
  rewrite Hpage, Hproject. cbn [negb].
  destruct w as [b fs stamp reqs ts con a [cs tm]].
  cbn [faults] in Hrefused.
  destruct fs as [|[|] fs]; cbn [hd] in Hrefused; try discriminate Hrefused.
  repeat split.
Qed.

Lemma handleSave_rejected_witness :
  backend (run (click handleSave) (refusing aboutEditor)) = hosted
  /\ toasts (run (click handleSave) (refusing aboutEditor))
     = [failure "Failed to save page"].
Proof.
  destruct (handleSave_rejected (refusing aboutEditor) aboutP1)
    as [Hbackend [_ [_ [_ Htoasts]]]].
  - reflexivity.
  - reflexivity.
  - reflexivity.
  - split; [exact Hbackend | exact Htoasts].
Defined.




(** X18.  A delete the backend rejects removes nothing: the backend, the
    editor and the navigation are as before, and the error notification
    is shown. *)
Theorem deletePage_rejected (env : Render) (w : World Live) (victim : Page.t) :
  2 <= List.length (pages (cells env)) ->
  hd false (faults w) = true ->
  backend (run (deletePage env victim) w) = backend w
  /\ ui (run (deletePage env victim) w) = ui w
  /\ app (run (deletePage env victim) w) = app w
  /\ toasts (run (deletePage env victim) w)
     = toasts w ++ [failure "Failed to delete page"].
Proof.
  intros Htwo Hrefused.
  unfold run, deletePage. cbv zeta.
  destruct (Nat.leb_spec (List.length (pages (cells env))) 1) as [Hle|_]; [lia |].
  destruct w as [b fs stamp reqs ts con a [cs tm]].
  cbn [faults] in Hrefused.
  destruct fs as [|[|] fs]; cbn [hd] in Hrefused; try discriminate Hrefused.
  repeat split.
Qed.

Lemma deletePage_rejected_witness :
  ui (run (deletePage (render aboutEditor) aboutP1) (refusing aboutEditor))
  = ui aboutEditor
  /\ backend (run (deletePage (render aboutEditor) aboutP1) (refusing aboutEditor))
     = hosted.
Proof.
  destruct (deletePage_rejected (render aboutEditor) (refusing aboutEditor) aboutP1)
    as [Hbackend [Hui _]].
  - simpl. lia.
  - reflexivity.
  - split; [exact Hui | exact Hbackend].
Defined.

End PageEditorFlows.

(* ===================================================================== *)
(** * More properties of the project manager                              *)
(* ===================================================================== *)

Module ProjectManagerFlows.

Import Supabase Ui ProjectManager UiFacts Scenario.
Local Open Scope nat_scope.

(** X19.  Without a signed-in user [createProject] stops after asking for
    the user: nothing is inserted, the list, the dialog and the navigation
    stay as they are, and the error notification is shown. *)
Theorem createProject_signed_out (env : State) (w : World State) :
  Js.trim (name (newProject env)) <> "" ->
  session (backend w) = None ->
  requests (run (createProject env) w) = requests w ++ [AuthGetUser]
  /\ backend (run (createProject env) w) = backend w
  /\ ui (run (createProject env) w) = ui w
  /\ app (run (createProject env) w) = app w
  /\ toasts (run (createProject env) w)
     = toasts w ++ [failure "Failed to create project"].
Proof.
  intros Hname Hsession.
  unfold run, createProject.
  destruct (Js.trim (name (newProject env))) as [|c rest] eqn:Htrim;
    [contradiction Hname; reflexivity |].
  cbn [Js.truthy_string negb].
  destruct w as [b fs stamp reqs ts con a u].
  destruct b as [sess prj pgs an nid nw].
  cbn [backend session] in Hsession. subst sess.
  destruct fs as [|[|] fs]; repeat split.
Qed.

Lemma createProject_signed_out_witness :
  requests (run (createProject testForm) (managerAt signedOut [] testForm))
  = [AuthGetUser]
  /\ backend (run (createProject testForm) (managerAt signedOut [] testForm))
     = signedOut.
Proof.
  destruct (createProject_signed_out testForm (managerAt signedOut [] testForm))
    as [Hrequests [Hbackend _]].
  - simpl. discriminate.
  - reflexivity.
  - split; [exact Hrequests | exact Hbackend].
Defined.

(** X20.  [createProject] does not look at the answer of the insert of
    the home page: when the backend serves the project insert and rejects
    the page insert, the project is stored without any page, and the
    handler goes on as after a success, with the success notification
    and the editor opened for the project. *)
Theorem createProject_home_page_unchecked (env : State) (w : World State)
  (user_id : string) :
  Js.trim (name (newProject env)) <> "" ->
  session (backend w) = Some user_id ->
  granted 2 (faults w) = true ->
  hd false (tl (tl (faults w))) = true ->
  exists created,
    Supabase.projects (backend (run (createProject env) w))
    = Supabase.projects (backend w) ++ [created]
    /\ pages (backend (run (createProject env) w)) = pages (backend w)
    /\ toasts (run (createProject env) w)
       = toasts w ++ [success "Project created successfully!"]
    /\ App.currentView (app (run (createProject env) w)) = App.editor
    /\ App.selectedProjectId (app (run (createProject env) w))
       = Some (Project.id created).
Proof.
  intros Hname Hsession Hgranted Hrefused.
  apply granted_S in Hgranted. destruct Hgranted as [H1 Hgranted].
  apply granted_S in Hgranted. destruct Hgranted as [H2 _].
  unfold run, createProject.
  destruct (Js.trim (name (newProject env))) as [|c rest] eqn:Htrim;
    [contradiction Hname; reflexivity |].
  cbn [Js.truthy_string negb].
  destruct w as [b fs stamp reqs ts con a u].
  destruct b as [sess prj pgs an nid nw].
  cbn [backend faults session] in *. subst sess.
  eexists.
  destruct fs as [|[|] [|[|] [|[|] fs]]]; cbn [hd tl] in *; try discriminate;
    repeat split.
Qed.

Lemma createProject_home_page_unchecked_witness :
  exists created,
    Supabase.projects
      (backend (run (createProject testForm)
                  (managerAt hosted [false; false; true] testForm)))
    = [siteP1; created]
    /\ pagesOfProject (Project.id created)
         (backend (run (createProject testForm)
                     (managerAt hosted [false; false; true] testForm)))
       = []
    /\ toasts (run (createProject testForm)
                 (managerAt hosted [false; false; true] testForm))
       = [success "Project created successfully!"].
Proof.
  destruct (createProject_home_page_unchecked testForm
              (managerAt hosted [false; false; true] testForm) "u1")
    as [created [Hprojects [Hpages [Htoasts _]]]].
  - simpl. discriminate.
  - reflexivity.
  - reflexivity.
  - reflexivity.
  - exists created. split; [exact Hprojects | split; [| exact Htoasts]].
    unfold pagesOfProject. rewrite Hpages.
    simpl in Hprojects. injection Hprojects as <-. reflexivity.
Defined.

(** X21.  [createProject] stores the form as typed: the name keeps the
    white space around it, the description is stored even when empty, and
    an empty subdomain is stored as [null]; the project is stored
    unpublished for the signed-in user. *)
Theorem createProject_stores_form (env : State) (w : World State) (user_id : string) :
  Js.trim (name (newProject env)) <> "" ->
  session (backend w) = Some user_id ->
  granted 2 (faults w) = true ->
  exists created,
    Supabase.projects (backend (run (createProject env) w))
    = Supabase.projects (backend w) ++ [created]
    /\ Project.name created = name (newProject env)
    /\ Project.description created = Some (description (newProject env))
    /\ Project.subdomain created
       = match subdomain (newProject env) with
         | EmptyString => None
         | typed => Some typed
         end
    /\ Project.user_id created = user_id
    /\ Project.is_published created = false.
Proof.
  intros Hname Hsession Hgranted.
  apply granted_S in Hgranted. destruct Hgranted as [H1 Hgranted].
  apply granted_S in Hgranted. destruct Hgranted as [H2 _].
  unfold run, createProject.
  destruct (Js.trim (name (newProject env))) as [|c rest] eqn:Htrim;
    [contradiction Hname; reflexivity |].
  cbn [Js.truthy_string negb].
  destruct w as [b fs stamp reqs ts con a u].
  destruct b as [sess prj pgs an nid nw].
  cbn [backend faults session] in *. subst sess.
  eexists.
  destruct fs as [|[|] [|[|] [|[|] fs]]]; cbn [hd tl] in *; try discriminate;
    (repeat split; cbn; destruct (subdomain (newProject env)); reflexivity).
Qed.

Lemma createProject_stores_form_witness :
  exists created,
    Supabase.projects
      (backend (run (createProject paddedForm) (managerAt hosted [] paddedForm)))
    = [siteP1; created]
    /\ Project.name created = " Blog "
    /\ Project.subdomain created = None.
Proof.
  destruct (createProject_stores_form paddedForm (managerAt hosted [] paddedForm) "u1")
    as [created [Hprojects [Hname [_ [Hsub _]]]]].
  - simpl. discriminate.
  - reflexivity.
  - reflexivity.
  - exists created. split; [exact Hprojects | split; [exact Hname | exact Hsub]].
Defined.

(** X22.  After a served [createProject] the new project is on top of
    the list, the dialog is closed and the form empty, and the editor is
    opened for the new project while the page selected before stays
    selected. *)
Theorem createProject_opens_editor (env : State) (w : World State) (user_id : string) :
  Js.trim (name (newProject env)) <> "" ->
  session (backend w) = Some user_id ->
  granted 2 (faults w) = true ->
  exists created,
    projects (ui (run (createProject env) w)) = created :: projects (ui w)
    /\ In created (Supabase.projects (backend (run (createProject env) w)))
    /\ showNewProjectDialog (ui (run (createProject env) w)) = false
    /\ newProject (ui (run (createProject env) w)) = emptyForm
    /\ App.currentView (app (run (createProject env) w)) = App.editor
    /\ App.selectedProjectId (app (run (createProject env) w))
       = Some (Project.id created)
    /\ App.selectedPageId (app (run (createProject env) w))
       = App.selectedPageId (app w).
Proof.
  intros Hname Hsession Hgranted.
  apply granted_S in Hgranted. destruct Hgranted as [H1 Hgranted].
  apply granted_S in Hgranted. destruct Hgranted as [H2 _].
  unfold run, createProject.
  destruct (Js.trim (name (newProject env))) as [|c rest] eqn:Htrim;
    [contradiction Hname; reflexivity |].
  cbn [Js.truthy_string negb].
  destruct w as [b fs stamp reqs ts con a u].
  destruct b as [sess prj pgs an nid nw].
  cbn [backend faults session] in *. subst sess.
  eexists.
  destruct fs as [|[|] [|[|] [|[|] fs]]]; cbn [hd tl] in *; try discriminate;
    (repeat split; cbn; apply in_or_app; right; left; reflexivity).
Qed.

Lemma createProject_opens_editor_witness :
  exists created,
    projects (ui (run (createProject testForm) (managerAt hosted [] testForm)))
    = [created; siteP1]
    /\ App.selectedProjectId
         (app (run (createProject testForm) (managerAt hosted [] testForm)))
       = Some (Project.id created)
    /\ App.selectedPageId
         (app (run (createProject testForm) (managerAt hosted [] testForm)))
       = Some "pg2".
Proof.
  destruct (createProject_opens_editor testForm (managerAt hosted [] testForm) "u1")
    as [created [Hlist [_ [_ [_ [_ [Hproject Hpage]]]]]]].
  - simpl. discriminate.
  - reflexivity.
  - reflexivity.
  - exists created. split; [exact Hlist | split; [exact Hproject | exact Hpage]].
Defined.

(** X23.  [duplicateProject] is not atomic: when the backend serves the
    project insert and rejects the insert of the page copies, the new
    project stays in the backend without pages, it is not added to the
    list of the manager, and the error notification is shown. *)
Theorem duplicateProject_copy_rejected (project : Project.t) (w : World State)
  (user_id : string) (first : Page.t) (others : list Page.t) :
  session (backend w) = Some user_id ->
  granted 3 (faults w) = true ->
  hd false (tl (tl (tl (faults w)))) = true ->
  pagesOfProject (Project.id project) (backend w) = first :: others ->
  exists created,
    Supabase.projects (backend (run (duplicateProject project) w))
    = Supabase.projects (backend w) ++ [created]
    /\ Project.name created = String.append (Project.name project) " (Copy)"
    /\ pages (backend (run (duplicateProject project) w)) = pages (backend w)
    /\ ui (run (duplicateProject project) w) = ui w
    /\ toasts (run (duplicateProject project) w)
       = toasts w ++ [failure "Failed to duplicate project"].
Proof.
  intros Hsession Hgranted Hrefused Hpages.
  apply granted_S in Hgranted. destruct Hgranted as [H1 Hgranted].
  apply granted_S in Hgranted. destruct Hgranted as [H2 Hgranted].
  apply granted_S in Hgranted. destruct Hgranted as [H3 _].
  unfold run, duplicateProject.
  destruct w as [b fs stamp reqs ts con a u].
  destruct b as [sess prj pgs an nid nw].
  cbn [backend faults session] in *. subst sess.
  assert (Hfound : forall prj' nid',
             pagesOfProject (Project.id project)
               (mkBackend (Some user_id) prj' pgs an nid' nw)
             = first :: others) by (intros; exact Hpages).
  eexists.
  destruct fs as [|[|] [|[|] [|[|] [|[|] fs]]]]; cbn [hd tl] in *;
    try discriminate;
    (repeat split;
     cbv -[pagesOfProject Project.id Project.name List.app String.append];
     rewrite ?Hfound; reflexivity).
Qed.

Lemma duplicateProject_copy_rejected_witness :
  exists created,
    Supabase.projects
      (backend (run (duplicateProject siteP1)
                  (managerAt hosted [false; false; false; true] testForm)))
    = [siteP1; created]
    /\ pages (backend (run (duplicateProject siteP1)
                         (managerAt hosted [false; false; false; true] testForm)))
       = [homeP1; aboutP1; contactP1]
    /\ projects (ui (run (duplicateProject siteP1)
                       (managerAt hosted [false; false; false; true] testForm)))
       = [siteP1].
Proof.
  destruct (duplicateProject_copy_rejected siteP1
              (managerAt hosted [false; false; false; true] testForm) "u1"
              homeP1 [aboutP1; contactP1])
    as [created [Hprojects [_ [Hpages [Hui _]]]]].
  - reflexivity.
  - reflexivity.
  - reflexivity.
  - reflexivity.
  - exists created. split; [exact Hprojects | split; [exact Hpages |]].
    rewrite Hui. reflexivity.
Defined.

(** X24.  Duplicating a project without pages sends no page insert: the
    three requests are the user, the project insert and the page query;
    the copy is stored and put on top of the list. *)
Theorem duplicateProject_without_pages (project : Project.t) (w : World State)
  (user_id : string) :
  session (backend w) = Some user_id ->
  granted 3 (faults w) = true ->
  pagesOfProject (Project.id project) (backend w) = [] ->
  exists created,
    requests (run (duplicateProject project) w)
    = requests w
      ++ [AuthGetUser; ProjectsInsert (copyRow project user_id);
          PagesSelectByProject (Project.id project)]
    /\ Supabase.projects (backend (run (duplicateProject project) w))
       = Supabase.projects (backend w) ++ [created]
    /\ pages (backend (run (duplicateProject project) w)) = pages (backend w)
    /\ projects (ui (run (duplicateProject project) w)) = created :: projects (ui w)
    /\ toasts (run (duplicateProject project) w)
       = toasts w ++ [success "Project duplicated successfully!"].
Proof.
  intros Hsession Hgranted Hpages.
  apply granted_S in Hgranted. destruct Hgranted as [H1 Hgranted].
  apply granted_S in Hgranted. destruct Hgranted as [H2 Hgranted].
  apply granted_S in Hgranted. destruct Hgranted as [H3 _].
  unfold run, duplicateProject.
  destruct w as [b fs stamp reqs ts con a u].
  destruct b as [sess prj pgs an nid nw].
  cbn [backend faults session] in *. subst sess.
  assert (Hfound : forall prj' nid',
             pagesOfProject (Project.id project)
               (mkBackend (Some user_id) prj' pgs an nid' nw)
             = []) by (intros; exact Hpages).
  eexists.
  destruct fs as [|[|] [|[|] [|[|] fs]]]; cbn [hd tl] in *; try discriminate;
    (repeat split;
     cbv -[pagesOfProject Project.id Project.name List.app String.append copyRow];
     rewrite ?Hfound; cbv -[Project.id Project.name List.app String.append copyRow];
     rewrite <- ?app_assoc; reflexivity).
Qed.

Lemma duplicateProject_without_pages_witness :
  exists created,
    requests (run (duplicateProject emptySite) (managerAt hosted [] testForm))
    = [AuthGetUser; ProjectsInsert (copyRow emptySite "u1"); PagesSelectByProject "p9"]
    /\ projects (ui (run (duplicateProject emptySite) (managerAt hosted [] testForm)))
       = [created; siteP1].
Proof.
  destruct (duplicateProject_without_pages emptySite (managerAt hosted [] testForm) "u1")
    as [created [Hrequests [_ [_ [Hlist _]]]]].
  - reflexivity.
  - reflexivity.
  - reflexivity.
  - exists created. split; [exact Hrequests | exact Hlist].
Defined.

End ProjectManagerFlows.

(* ===================================================================== *)
(** * Properties of the sidebar                                           *)
(* ===================================================================== *)

Module SidebarLaws.

Import Sidebar.

Lemma includes_app (xs ys : list string) (x : string) :
  includes (xs ++ ys) x = includes xs x || includes ys x.
Proof. unfold includes. apply existsb_app. Qed.

Lemma includes_one (x y : string) : includes [y] x = String.eqb y x.
Proof. unfold includes. simpl. apply orb_false_r. Qed.

Lemma includes_filter (xs : list string) (x p : string) :
  includes (filter (fun id => negb (String.eqb id p)) xs) x
  = includes xs x && negb (String.eqb x p).
Proof.
  unfold includes. induction xs as [|y xs IH]; simpl.
  - reflexivity.
  - destruct (String.eqb_spec y p) as [->|Hyp]; simpl.
    + rewrite IH. destruct (String.eqb_spec p x) as [->|Hpx]; simpl.
      * rewrite String.eqb_refl. simpl. rewrite !andb_false_r. reflexivity.
      * reflexivity.
    + rewrite IH. destruct (String.eqb_spec y x) as [->|Hyx]; simpl.
      * destruct (String.eqb_spec x p) as [->|_]; [contradiction Hyp; reflexivity |].
        reflexivity.
      * reflexivity.
Qed.

Lemma filter_absent (xs : list string) (p : string) :
  includes xs p = false ->
  filter (fun id => negb (String.eqb id p)) xs = xs.
Proof.
  unfold includes. induction xs as [|y xs IH]; simpl; intros H.
  - reflexivity.
  - apply orb_false_iff in H. destruct H as [Hy Hxs].
    rewrite Hy. simpl. rewrite IH by exact Hxs. reflexivity.
Qed.

(** X25.  A click on a project of the sidebar flips whether it is
    expanded and leaves the other projects as they are. *)
Theorem toggleProject_flips (projectId : string) (prev : list string) :
  includes (toggleProject projectId prev) projectId = negb (includes prev projectId)
  /\ (forall other, other <> projectId ->
        includes (toggleProject projectId prev) other = includes prev other).
Proof.
  unfold toggleProject. destruct (includes prev projectId) eqn:Hin; split.
  - rewrite includes_filter, String.eqb_refl. apply andb_false_r.
  - intros other Hother. rewrite includes_filter.
    destruct (String.eqb_spec other projectId) as [->|_];
      [contradiction Hother; reflexivity | apply andb_true_r].
  - rewrite includes_app, includes_one, String.eqb_refl. apply orb_true_r.
  - intros other Hother. rewrite includes_app, includes_one.
    destruct (String.eqb_spec projectId other) as [->|_];
      [contradiction Hother; reflexivity | apply orb_false_r].
Qed.

Lemma toggleProject_flips_witness :
  includes (toggleProject "p1" ["p0"; "p1"; "p2"]) "p1" = false
  /\ includes (toggleProject "p1" ["p0"; "p1"; "p2"]) "p2"
     = includes ["p0"; "p1"; "p2"] "p2".
Proof.
  destruct (toggleProject_flips "p1" ["p0"; "p1"; "p2"]) as [Hflip Hothers].
  split; [exact Hflip |].
  apply Hothers. discriminate.
Defined.

(** X26.  Two clicks on a project leave every project expanded or
    collapsed as it was, and give back the very list when the project was
    collapsed before. *)
Theorem toggleProject_twice (projectId : string) (prev : list string) :
  (forall other,
      includes (toggleProject projectId (toggleProject projectId prev)) other
      = includes prev other)
  /\ (includes prev projectId = false ->
      toggleProject projectId (toggleProject projectId prev) = prev).
Proof.
  split.
  - intros other. unfold toggleProject at 1.
    assert (Hflip : includes (toggleProject projectId prev) projectId
                    = negb (includes prev projectId)).
    { unfold toggleProject. destruct (includes prev projectId) eqn:Hin.
      - rewrite includes_filter, String.eqb_refl. apply andb_false_r.
      - rewrite includes_app, includes_one, String.eqb_refl. apply orb_true_r. }
    rewrite Hflip. unfold toggleProject.
    destruct (includes prev projectId) eqn:Hin; cbn [negb].
    + rewrite includes_app, includes_one, includes_filter.
      destruct (String.eqb_spec other projectId) as [->|Hne].
      * rewrite String.eqb_refl, Hin. reflexivity.
      * destruct (String.eqb_spec projectId other) as [Heq|_];
          [contradiction Hne; symmetry; exact Heq |].
        rewrite andb_true_r. apply orb_false_r.
    + rewrite includes_filter, includes_app, includes_one.
      destruct (String.eqb_spec other projectId) as [->|Hne].
      * rewrite Hin, String.eqb_refl. reflexivity.
      * destruct (String.eqb_spec projectId other) as [Heq|_];
          [contradiction Hne; symmetry; exact Heq |].
        rewrite andb_true_r. apply orb_false_r.
  - intros Hin. unfold toggleProject. rewrite Hin.
    rewrite includes_app, includes_one, String.eqb_refl, orb_true_r.
    rewrite filter_app. simpl. rewrite String.eqb_refl. simpl.
    rewrite filter_absent by exact Hin. apply app_nil_r.
Qed.

Lemma toggleProject_twice_witness :
  includes ["p0"; "p2"] "p1" = false
  /\ toggleProject "p1" (toggleProject "p1" ["p0"; "p2"]) = ["p0"; "p2"].
Proof.
  split; [reflexivity |].
  apply (proj2 (toggleProject_twice "p1" ["p0"; "p2"])). reflexivity.
Defined.

(** X27.  The selected project cannot stay collapsed: once the effect
    has run, a selected project is expanded, also right after a click
    that collapsed it; and the effect run again changes nothing. *)
Theorem selected_project_stays_expanded (projectId : string) (expanded : list string) :
  projectId <> "" ->
  includes (settle (Some projectId) expanded) projectId = true
  /\ includes (settle (Some projectId) (toggleProject projectId expanded)) projectId
     = true
  /\ settle (Some projectId) (settle (Some projectId) expanded)
     = settle (Some projectId) expanded.
Proof.
  intros Hne.
  assert (Htruthy : Js.truthy_string projectId = true)
    by (destruct projectId; [contradiction Hne; reflexivity | reflexivity]).
  assert (Hsettle : forall xs, includes (settle (Some projectId) xs) projectId = true).
  { intros xs. unfold settle, expandSelected. rewrite Htruthy. cbn [andb].
    destruct (includes xs projectId) eqn:Hin; cbn [negb].
    - exact Hin.
    - rewrite includes_app, includes_one, String.eqb_refl. apply orb_true_r. }
  split; [apply Hsettle | split; [apply Hsettle |]].
  unfold settle at 1. unfold expandSelected.
  rewrite Htruthy, Hsettle. reflexivity.
Qed.

Lemma selected_project_stays_expanded_witness :
  includes (toggleProject "p1" ["p0"; "p1"]) "p1" = false
  /\ includes (settle (Some "p1") (toggleProject "p1" ["p0"; "p1"])) "p1" = true.
Proof.
  split; [reflexivity |].
  apply (selected_project_stays_expanded "p1" ["p0"; "p1"]). discriminate.
Defined.

End SidebarLaws.

(* ===================================================================== *)
(** * More properties of the dashboard                                    *)
(* ===================================================================== *)

Module DashboardFlows.

Import Supabase Ui Dashboard UiFacts Scenario.

(** X28.  The dashboard shows all or nothing: when the backend rejects
    the project query or the analytics query, the projects and the
    statistics shown stay as they were, also the projects that were
    fetched; [loading] ends [false] and no notification is shown. *)
Theorem loadDashboardData_failed (w : World State) :
  granted 2 (faults w) = false ->
  projects (ui (run loadDashboardData w)) = projects (ui w)
  /\ stats (ui (run loadDashboardData w)) = stats (ui w)
  /\ loading (ui (run loadDashboardData w)) = false
  /\ toasts (run loadDashboardData w) = toasts w
  /\ backend (run loadDashboardData w) = backend w.
Proof.
  intros Hrefused.
  destruct w as [b fs stamp reqs ts con a u].
  cbn [faults] in Hrefused.
  destruct fs as [|[|] [|[|] fs]]; cbn in Hrefused; try discriminate Hrefused;
    repeat split.
Qed.

Lemma loadDashboardData_failed_witness :
  granted 2 [false; true] = false
  /\ projects (ui (run loadDashboardData
                     (mount hosted [false; true] stamp App.initialAppState initialState)))
     = []
  /\ loading (ui (run loadDashboardData
                    (mount hosted [false; true] stamp App.initialAppState initialState)))
     = false.
Proof.
  split; [reflexivity |].
  destruct (loadDashboardData_failed
              (mount hosted [false; true] stamp App.initialAppState initialState))
    as [Hprojects [_ [Hloading _]]].
  - reflexivity.
  - split; [exact Hprojects | exact Hloading].
Defined.

Lemma filter_length_le {A : Type} (keep : A -> bool) (l : list A) :
  (List.length (filter keep l) <= List.length l)%nat.
Proof.
  induction l as [|x l IH]; simpl.
  - apply Nat.le_refl.
  - destruct (keep x); simpl; lia.
Qed.

(** X29.  The statistics of a served load are ordered: the published
    sites are at most the projects, which are at most five, and the
    active users are at most the views; none is negative. *)
Theorem loadDashboardData_bounds (w : World State) :
  granted 2 (faults w) = true ->
  (Z.of_nat (List.length (analytics (backend w))) < 2 ^ 32)%Z ->
  (0 <= publishedSites (stats (ui (run loadDashboardData w)))
   <= totalProjects (stats (ui (run loadDashboardData w))))%Z
  /\ (totalProjects (stats (ui (run loadDashboardData w))) <= 5)%Z
  /\ (0 <= activeUsers (stats (ui (run loadDashboardData w)))
      <= totalViews (stats (ui (run loadDashboardData w))))%Z.
Proof.
  intros Hgranted Hbound.
  rewrite (DashboardLaws.loadDashboardData_served w Hgranted).
  cbn [stats totalProjects publishedSites totalViews activeUsers
       calculateStats Js.length_opt option_map].
  rewrite !DashboardLaws.or_zero_Some.
  rewrite NumberFacts.floor_mul_0_4 by lia.
  pose proof (filter_length_le Project.is_published (recentProjects 5 (backend w))).
  pose proof (DashboardLaws.recentProjects_length 5 (backend w)).
  pose proof (Nat.le_min_l 5 (List.length (Supabase.projects (backend w)))).
  set (n := Z.of_nat (List.length (analytics (backend w)))) in *.
  assert (0 <= n)%Z by (unfold n; lia).
  assert (0 <= n * 4 / 10 <= n)%Z.
  { split.
    - apply Z.div_pos; lia.
    - apply Z.div_le_upper_bound; lia. }
  lia.
Qed.

Lemma loadDashboardData_bounds_witness :
  (0 <= activeUsers (stats (ui (run loadDashboardData dashboardWorld)))
   <= totalViews (stats (ui (run loadDashboardData dashboardWorld))))%Z.
Proof.
  destruct (loadDashboardData_bounds dashboardWorld) as [_ [_ H]].
  - reflexivity.
  - reflexivity.
  - exact H.
Defined.

End DashboardFlows.
